(** * RegAllocRunner._compile_fn: collecting regalloc training data

  A shallow embedding of [compiler_opt/rl/regalloc/regalloc_runner.py].
  The runner creates a temporary directory, checks how many input paths it
  received, builds the clang command line, runs it, reads the training log
  the compiler wrote, and turns every logged region into a
  (trace, reward) pair.

  The embedding keeps the shape of the Python code: exceptions are an error
  monad, the observable actions on the outside world (temporary directory,
  child process, log file) are recorded in an event log, the protobuf
  messages are records, and protobuf maps and the result dict are [gmap]s. *)

From Stdlib Require Import ZArith String Ascii List.
From stdpp Require Import base option strings list gmap fin_maps.
Import ListNotations.
Open Scope string_scope.
Open Scope list_scope.

(** ** Python exceptions and control flow *)

Module Py.

(** The exception classes that can leave [_compile_fn]. *)
Inductive exn : Type :=
| OSError                                   (* tempfile.mkdtemp *)
| FileNotFoundError                         (* io.open *)
| CalledProcessError (returncode : Z)       (* subprocess, non-zero exit *)
| TimeoutExpired                            (* subprocess, deadline passed *)
| ProcessKilledError                        (* compilation_runner, cancelled *)
| BinasciiError                             (* base64.b64decode *)
| DecodeError                               (* Message.ParseFromString *)
| IndexError                                (* sequence index out of range *)
| KeyError.                                 (* del on a missing map key *)

(** How a piece of Python code ends: with a value, with an exception that
    unwinds to the caller, or with [logging.fatal], which logs the message
    and aborts the interpreter ([finally] clauses are not run and nothing
    is handed back to the caller). *)
Inductive outcome (A : Type) : Type :=
| Returned (a : A)
| Raised (e : exn)
| Fatal (msg : string).
Arguments Returned {A} a.
Arguments Raised {A} e.
Arguments Fatal {A} msg.

Definition bind {A B} (c : outcome A) (k : A -> outcome B) : outcome B :=
  match c with
  | Returned a => k a
  | Raised e => Raised e
  | Fatal msg => Fatal msg
  end.

(** [x or raise e] for library calls that are modelled as partial
    functions. *)
Definition or_raise {A} (e : exn) (o : option A) : outcome A :=
  match o with
  | Some a => Returned a
  | None => Raised e
  end.

(** Truth value of an [Optional[str]]: [None] and the empty string are
    false. *)
Definition truthy (s : option string) : bool :=
  match s with
  | None => false
  | Some EmptyString => false
  | Some (String _ _) => true
  end.

(** [l[-1]] *)
Definition getitem_last {A} (l : list A) : outcome A :=
  or_raise IndexError (last l).

(** [l[0]] *)
Definition getitem_0 {A} (l : list A) : outcome A :=
  or_raise IndexError (head l).

End Py.
Export Py.

#[global] Instance outcome_ret : MRet outcome := @Returned.
#[global] Instance outcome_bind : MBind outcome := fun A B k c => Py.bind c k.

(** ** posixpath.join, for two components *)

Module OsPath.

Fixpoint endswith_sep (s : string) : bool :=
  match s with
  | EmptyString => false
  | String c EmptyString => Ascii.eqb c "/"
  | String _ s' => endswith_sep s'
  end.

Definition startswith_sep (s : string) : bool :=
  match s with
  | String c _ => Ascii.eqb c "/"
  | EmptyString => false
  end.

Definition join (a b : string) : string :=
  if startswith_sep b then b
  else if (match a with EmptyString => true | _ => false end) || endswith_sep a
       then a +:+ b
       else a +:+ "/" +:+ b.

End OsPath.

(** ** Protocol buffer messages *)

Module Proto.

(** A 32-bit float of a [FloatList], carried as its bit pattern: the runner
    only moves these values around. *)
Definition float := Z.
Definition bytes := list Byte.byte.

(** [tf.train.Feature]: a oneof over three list kinds. *)
Inductive Feature : Type :=
| KindNotSet
| BytesList (value : list bytes)
| FloatList (value : list float)
| Int64List (value : list Z).

(** Reading [f.float_list.value]: a feature of another kind reads as the
    default (empty) FloatList. *)
Definition float_list_value (f : Feature) : list float :=
  match f with
  | FloatList value => value
  | _ => []
  end.

(** [tf.train.FeatureList]: repeated Feature. *)
Record FeatureList : Type := { feature : list Feature }.

(** [tf.train.FeatureLists]: map<string, FeatureList>. *)
Record FeatureLists : Type := { feature_list : gmap string FeatureList }.

(** [tf.train.SequenceExample]; both submessages track presence, which is
    what [HasField] reports. *)
Record SequenceExample : Type := {
  context : option (gmap string Feature);
  feature_lists : option FeatureLists
}.

Definition HasField_feature_lists (e : SequenceExample) : bool :=
  match feature_lists e with Some _ => true | None => false end.

(** [m[key]] on a protobuf map whose values are messages: a missing key is
    inserted with a default message, which is returned. *)
Definition map_getitem (m : gmap string FeatureList) (key : string)
  : FeatureList * gmap string FeatureList :=
  match m !! key with
  | Some v => (v, m)
  | None => ({| feature := [] |}, <[key := {| feature := [] |}]> m)
  end.

(** [del m[key]]: KeyError on a missing key. *)
Definition map_delitem (m : gmap string FeatureList) (key : string)
  : outcome (gmap string FeatureList) :=
  match m !! key with
  | Some _ => Returned (delete key m)
  | None => Raised KeyError
  end.

(** [google.protobuf.Value], a oneof; [google.protobuf.Struct] is
    map<string, Value>, kept here as the list of its items in iteration
    order. *)
#[warnings="-register-all"]
Inductive Value : Type :=
| NullValue
| NumberValue (number_value : Z)
| StringValue (string_value : string)
| BoolValue (bool_value : bool)
| StructValue (fields : list (string * Value))
| ListValue (values : list Value).

(** Reading [v.string_value]: the default (empty string) unless the oneof
    holds a string. *)
Definition string_value (v : Value) : string :=
  match v with
  | StringValue s => s
  | _ => ""
  end.

Record Struct : Type := { fields : list (string * Value) }.

End Proto.
Export Proto.

(** ** The outside world *)

(** Modelled from the spec: [compilation_runner.start_cancellable_process]
    lives in another module; section 4.2 gives its contract
    [execute(argv, timeout, cancellationHandle) ->
     success | TimedOut | Killed | NonZeroExit]. *)
Inductive process_result : Type :=
| Success
| TimedOut
| Killed
| NonZeroExit (returncode : Z).

(** Modelled from the spec: the failure each result of the Process Executor
    is reported as ([ProcessKilledError] stays distinguishable, [TimedOut] and
    [NonZeroExit] are the subprocess errors named in the docstring). *)
Definition process_failure (r : process_result) : option exn :=
  match r with
  | Success => None
  | TimedOut => Some TimeoutExpired
  | Killed => Some ProcessKilledError
  | NonZeroExit rc => Some (CalledProcessError rc)
  end.

(** The handle through which another thread cancels the child process. *)
Inductive WorkerCancellationManager : Type :=
| worker_cancellation_manager (id : nat).

(** Everything [_compile_fn] asks of its environment.  One [World] fixes the
    answers for one run: the name [tempfile.mkdtemp] hands out (or its
    failure), what the bundling convention of [compilation_runner] makes of
    the .cmd file, how the child process ends, what can be read back from a
    path once the process is over, and the two codecs (protobuf, base64). *)
Record World : Type := {
  mkdtemp : option string;
  get_command_line_for_bundle : string -> string -> option string -> list string;
  run_process : list string -> Z -> option WorkerCancellationManager -> process_result;
  read_file : string -> option bytes;
  Struct_ParseFromString : bytes -> option Struct;
  b64decode : string -> option bytes;
  SequenceExample_ParseFromString : bytes -> option SequenceExample
}.

(** Actions on the outside world, in the order they happen. *)
Inductive event : Type :=
| Mkdtemp (dir : string)
| StartProcess (argv : list string)
| OpenRead (path : string)
| Rmtree (dir : string).

(** Code with effects: the events so far go in, the outcome and the extended
    event log come out. *)
Definition M (A : Type) : Type := list event -> outcome A * list event.

Definition m_ret {A} (a : A) : M A := fun tr => (Returned a, tr).

Definition m_bind {A B} (c : M A) (k : A -> M B) : M B :=
  fun tr =>
    match c tr with
    | (Returned a, tr') => k a tr'
    | (Raised e, tr') => (Raised e, tr')
    | (Fatal msg, tr') => (Fatal msg, tr')
    end.

#[global] Instance M_ret : MRet M := @m_ret.
#[global] Instance M_bind : MBind M := fun A B k c => m_bind c k.

Definition emit (ev : event) : M unit := fun tr => (Returned tt, tr ++ [ev]).

(** Code without effects, run inside effectful code. *)
Definition lift {A} (c : outcome A) : M A := fun tr => (c, tr).

(** [logging.fatal(msg)] *)
Definition logging_fatal {A} (msg : string) : M A := lift (Fatal msg).

(** [try: body finally: handler].  The handler runs whether the body returned
    or raised; an exception of the handler replaces the pending one.  After
    [logging.fatal] the interpreter is gone and no handler runs. *)
Definition try_finally {A} (body : M A) (handler : M unit) : M A :=
  fun tr =>
    match body tr with
    | (Fatal msg, tr') => (Fatal msg, tr')
    | (Returned a, tr') =>
        match handler tr' with
        | (Returned _, tr'') => (Returned a, tr'')
        | (Raised e, tr'') => (Raised e, tr'')
        | (Fatal msg, tr'') => (Fatal msg, tr'')
        end
    | (Raised e, tr') =>
        match handler tr' with
        | (Returned _, tr'') => (Raised e, tr'')
        | (Raised e', tr'') => (Raised e', tr'')
        | (Fatal msg, tr'') => (Fatal msg, tr'')
        end
    end.

(** [tempfile.mkdtemp()] *)
Definition tempfile_mkdtemp (w : World) : M string :=
  dir ← lift (or_raise OSError (mkdtemp w));
  _ ← emit (Mkdtemp dir);
  mret dir.

(** Modelled from the spec: [compilation_runner.start_cancellable_process
    (cmdline, timeout, cm)] starts the process, waits for one of the four
    results of section 4.2 and raises for the three failures. *)
Definition start_cancellable_process (w : World) (cmdline : list string)
    (timeout : Z) (cancellation_manager : option WorkerCancellationManager)
  : M unit :=
  _ ← emit (StartProcess cmdline);
  match process_failure (run_process w cmdline timeout cancellation_manager) with
  | None => mret tt
  | Some e => lift (Raised e)
  end.

(** [with io.open(path, 'rb') as f: f.read()] *)
Definition io_read (w : World) (path : string) : M bytes :=
  _ ← emit (OpenRead path);
  lift (or_raise FileNotFoundError (read_file w path)).

(** [tf.io.gfile.rmtree(dir)]; the removal itself is taken to succeed. *)
Definition gfile_rmtree (dir : string) : M unit := emit (Rmtree dir).

(** ** The runner *)

(** The attributes of [self] that [_compile_fn] reads. *)
Record RegAllocRunner : Type := {
  _clang_path : string;
  _launcher_path : option string;
  _compilation_timeout : Z
}.

(** The dict [_compile_fn] returns: key -> (sequence_example or None, reward). *)
Abbreviation ResultMap := (gmap string (option SequenceExample * float)).

(** [if s: ... f(s) ...] contributing arguments to a command line. *)
Definition when_truthy (s : option string) (f : string -> list string)
  : list string :=
  match s with
  | Some p => if truthy s then f p else []
  | None => []
  end.

(** Lines 78-83: unpacking [file_paths].  Any length other than 2 or 3 ends
    in [logging.fatal]. *)
Definition unpack_file_paths (file_paths : list string)
  : M (string * string * option string) :=
  match file_paths with
  | [input_ir_path; cmd_path; thinlto_index_path] =>
      mret (input_ir_path, cmd_path, Some thinlto_index_path)
  | [input_ir_path; cmd_path] =>
      mret (input_ir_path, cmd_path, None)
  | _ => logging_fatal "Expected 2 or 3 file paths"
  end.

(** Lines 87-100: the command line. *)
Definition build_command_line (w : World) (self : RegAllocRunner)
    (cmd_path input_ir_path : string) (thinlto_index_path : option string)
    (tf_policy_path : option string) (log_path output_native_path : string)
  : list string :=
  let command_line := [] in
  let command_line :=
    command_line ++ when_truthy (_launcher_path self) (fun p => [p]) in
  let command_line :=
    command_line ++
      ([_clang_path self] ++
       get_command_line_for_bundle w cmd_path input_ir_path thinlto_index_path ++
       ["-mllvm"; "-thinlto-assume-merged"; "-mllvm";
        "-regalloc-enable-advisor=development";
        "-mllvm"; "-regalloc-training-log=" +:+ log_path;
        "-o"; output_native_path]) in
  let command_line :=
    command_line ++
      when_truthy tf_policy_path (fun p => ["-mllvm"; "-regalloc-model=" +:+ p]) in
  command_line.

(** Lines 111-112: [e = tf.train.SequenceExample();
    e.ParseFromString(base64.b64decode(value.string_value))]. *)
Definition decode_trace (w : World) (value : Value) : outcome SequenceExample :=
  raw ← or_raise BinasciiError (b64decode w (string_value value));
  or_raise DecodeError (SequenceExample_ParseFromString w raw).

(** Lines 111-122: the body of the loop over the items of the log, for one
    [(key, value)]; [result] is the dict so far.  [continue] is returning the
    dict unchanged. *)
Definition loop_body (w : World) (reward_only : bool)
    (key : string) (value : Value) (result : ResultMap)
  : outcome ResultMap :=
  e ← decode_trace w value;
  if negb (HasField_feature_lists e) then mret result
  else
    let fls := default {| feature_list := ∅ |} (feature_lists e) in
    let '(reward, fl) := map_getitem (feature_list fls) "reward" in
    last_feature ← getitem_last (feature reward);
    r ← getitem_0 (float_list_value last_feature);
    if reward_only then mret (<[key := (None, r)]> result)
    else
      fl' ← map_delitem fl "reward";
      let e' := {| context := context e;
                   feature_lists := Some {| feature_list := fl' |} |} in
      mret (<[key := (Some e', r)]> result).

(** Line 110: [for key, value in sequence_example.fields.items()]. *)
Fixpoint for_items (w : World) (reward_only : bool)
    (items : list (string * Value)) (result : ResultMap)
  : outcome ResultMap :=
  match items with
  | [] => mret result
  | (key, value) :: rest =>
      result' ← loop_body w reward_only key value result;
      for_items w reward_only rest result'
  end.

(** Lines 86-123: the body of the [try]. *)
Definition try_body (w : World) (self : RegAllocRunner)
    (input_ir_path cmd_path : string) (thinlto_index_path : option string)
    (tf_policy_path : option string) (reward_only : bool)
    (cancellation_manager : option WorkerCancellationManager)
    (log_path output_native_path : string)
  : M ResultMap :=
  let result : ResultMap := ∅ in
  let command_line :=
    build_command_line w self cmd_path input_ir_path thinlto_index_path
                       tf_policy_path log_path output_native_path in
  _ ← start_cancellable_process w command_line (_compilation_timeout self)
        cancellation_manager;
  content ← io_read w log_path;
  sequence_example ← lift (or_raise DecodeError (Struct_ParseFromString w content));
  lift (for_items w reward_only (fields sequence_example) result).

(** [RegAllocRunner._compile_fn] *)
Definition _compile_fn (w : World) (self : RegAllocRunner)
    (file_paths : list string) (tf_policy_path : option string)
    (reward_only : bool)
    (cancellation_manager : option WorkerCancellationManager)
  : M ResultMap :=
  working_dir ← tempfile_mkdtemp w;
  let log_path := OsPath.join working_dir "log" in
  let output_native_path := OsPath.join working_dir "native" in
  '(input_ir_path, cmd_path, thinlto_index_path) ← unpack_file_paths file_paths;
  try_finally
    (try_body w self input_ir_path cmd_path thinlto_index_path tf_policy_path
              reward_only cancellation_manager log_path output_native_path)
    (gfile_rmtree working_dir).

(** One run from an empty event log. *)
Definition run (w : World) (self : RegAllocRunner)
    (file_paths : list string) (tf_policy_path : option string)
    (reward_only : bool)
    (cancellation_manager : option WorkerCancellationManager)
  : outcome ResultMap * list event :=
  _compile_fn w self file_paths tf_policy_path reward_only cancellation_manager [].

(** ** Concrete worlds

    A small family of worlds to run the embedding on: the temporary directory
    is [dir], the .cmd file holds the options [base], the process ends as
    [pr], the log file (when [log] is not [None]) parses to the items [log],
    and a payload decodes to the trace listed under its text in [traces]
    (any other payload does not parse). *)

Definition table_world (dir : string) (base : list string)
    (pr : process_result) (log : option (list (string * Value)))
    (traces : list (string * SequenceExample)) : World :=
  {| mkdtemp := Some dir;
     get_command_line_for_bundle := fun cmd_path ir_path thinlto =>
       base ++ ["-x"; "ir"; ir_path] ++
       when_truthy thinlto (fun t => ["-fthinlto-index=" +:+ t]);
     run_process := fun _ _ _ => pr;
     read_file := fun path =>
       if String.eqb path (OsPath.join dir "log") then Some [] else None;
     Struct_ParseFromString := fun _ => Build_Struct <$> log;
     b64decode := fun s => Some (list_byte_of_string s);
     SequenceExample_ParseFromString := fun b =>
       snd <$> find (fun p => String.eqb (fst p) (string_of_list_byte b)) traces
  |}.

Definition demo_self : RegAllocRunner :=
  {| _clang_path := "/usr/bin/clang";
     _launcher_path := None;
     _compilation_timeout := 60 |}.

Definition rewards (l : list (list float)) : FeatureList :=
  {| feature := FloatList <$> l |}.

(** A trace with one observation list and rewards 5, 7. *)
Definition trace_ok : SequenceExample :=
  {| context := None;
     feature_lists := Some {| feature_list :=
       <["mask" := {| feature := [Int64List [1%Z]; Int64List [0%Z]] |}]>
       (<["reward" := rewards [[5%Z]; [7%Z]]]> ∅) |} |}.

(** A region that produced nothing. *)
Definition trace_no_data : SequenceExample :=
  {| context := None; feature_lists := None |}.

(** A reward list that is there but holds no entry. *)
Definition trace_empty_reward : SequenceExample :=
  {| context := None;
     feature_lists := Some {| feature_list := <["reward" := rewards []]> ∅ |} |}.

(** Feature lists, none of them called reward. *)
Definition lists_no_reward : FeatureLists :=
  {| feature_list := <["mask" := {| feature := [Int64List [1%Z]] |}]> ∅ |}.

Definition trace_no_reward : SequenceExample :=
  {| context := None; feature_lists := Some lists_no_reward |}.

(** A trace whose last reward entry carries two floats. *)
Definition trace_two_floats : SequenceExample :=
  {| context := None;
     feature_lists := Some {| feature_list :=
       <["reward" := rewards [[5%Z]; [7%Z; 9%Z]]]> ∅ |} |}.

Definition demo_traces : list (string * SequenceExample) :=
  [("ok", trace_ok); ("nodata", trace_no_data);
   ("emptyreward", trace_empty_reward); ("noreward", trace_no_reward);
   ("twofloats", trace_two_floats)].

Definition demo_world (log : list (string * Value)) : World :=
  table_world "/tmp/tmpk3x" ["-cc1"; "-O2"] Success (Some log) demo_traces.


(** ** Vocabulary of the specification *)

(** The artifact tuple has 2 or 3 paths. *)
Definition valid_arity (file_paths : list string) : Prop :=
  length file_paths = 2 \/ length file_paths = 3.

(** Something reaches the caller: a return value or an exception. *)
Definition handed_back {A} (o : outcome A) : Prop :=
  match o with
  | Returned _ | Raised _ => True
  | Fatal _ => False
  end.

(** The "reward" feature list of a trace, if it has one. *)
Definition reward_feature_list (e : SequenceExample) : option FeatureList :=
  fls ← feature_lists e; feature_list fls !! "reward".

(** The float sequence under the "reward" feature list: the floats of its
    entries, in order. *)
Definition reward_float_sequence (e : SequenceExample) : list float :=
  match reward_feature_list e with
  | Some rl => concat (float_list_value <$> feature rl)
  | None => []
  end.

(** What line 115-117 reads when every index is in range: the first float of
    the last entry of the reward feature list. *)
Definition last_entry_first_float (e : SequenceExample) : option float :=
  rl ← reward_feature_list e;
  f ← last (feature rl);
  head (float_list_value f).

(** The trace with its reward feature list removed. *)
Definition without_reward (e : SequenceExample) : SequenceExample :=
  {| context := context e;
     feature_lists :=
       (fun fls => {| feature_list := delete "reward" (feature_list fls) |})
         <$> feature_lists e |}.

(** The Record Extractor of section 4.4 for one payload:
    [Returned None] is Skip. *)
Definition extract (w : World) (reward_only : bool) (value : Value)
  : outcome (option (option SequenceExample * float)) :=
  e ← decode_trace w value;
  match feature_lists e with
  | None => mret None
  | Some _ =>
      match last_entry_first_float e with
      | None => Raised IndexError
      | Some r =>
          mret (Some (if reward_only then None else Some (without_reward e), r))
      end
  end.

(** Storing the extractor's answer under [key]. *)
Definition store (key : string) (x : option (option SequenceExample * float))
    (result : ResultMap) : ResultMap :=
  match x with
  | None => result
  | Some p => <[key := p]> result
  end.

(** The log-output flag and the policy flag, recognised by their option
    name. *)
Definition is_log_output_flag (a : string) : bool :=
  String.prefix "-regalloc-training-log=" a.

Definition is_policy_flag (a : string) : bool :=
  String.prefix "-regalloc-model=" a.

Definition count_flags (p : string -> bool) (argv : list string) : nat :=
  length (List.filter p argv).

(** The command line [_compile_fn] builds for [file_paths] when the temporary
    directory is [dir]. *)
Definition argv_for (w : World) (self : RegAllocRunner)
    (file_paths : list string) (tf_policy_path : option string) (dir : string)
  : list string :=
  match file_paths with
  | [ir; cmd; idx] =>
      build_command_line w self cmd ir (Some idx) tf_policy_path
        (OsPath.join dir "log") (OsPath.join dir "native")
  | [ir; cmd] =>
      build_command_line w self cmd ir None tf_policy_path
        (OsPath.join dir "log") (OsPath.join dir "native")
  | _ => []
  end.

(** The arguments of that command line that the builder takes over from
    elsewhere: the launcher, the compiler binary, the bundled base arguments
    and the output path. *)
Definition foreign_args (w : World) (self : RegAllocRunner)
    (file_paths : list string) (dir : string) : list string :=
  when_truthy (_launcher_path self) (fun p => [p]) ++
  [_clang_path self] ++
  match file_paths with
  | [ir; cmd; idx] => get_command_line_for_bundle w cmd ir (Some idx)
  | [ir; cmd] => get_command_line_for_bundle w cmd ir None
  | _ => []
  end ++
  [OsPath.join dir "native"].

(** The items of the log container a world holds under [dir]. *)
Definition log_items (w : World) (dir : string)
  : option (list (string * Value)) :=
  content ← read_file w (OsPath.join dir "log");
  fields <$> Struct_ParseFromString w content.

(** The run gets as far as the loop over [items]: the directory [dir] was
    made, the arity is fine, the process succeeded and the log parsed. *)
Definition reaches_loop (w : World) (self : RegAllocRunner)
    (file_paths : list string) (tf_policy_path : option string)
    (cancellation_manager : option WorkerCancellationManager)
    (dir : string) (items : list (string * Value)) : Prop :=
  mkdtemp w = Some dir /\
  valid_arity file_paths /\
  run_process w (argv_for w self file_paths tf_policy_path dir)
    (_compilation_timeout self) cancellation_manager = Success /\
  log_items w dir = Some items.

(** The events of a run that reaches the loop. *)
Definition full_events (w : World) (self : RegAllocRunner)
    (file_paths : list string) (tf_policy_path : option string) (dir : string)
  : list event :=
  [Mkdtemp dir;
   StartProcess (argv_for w self file_paths tf_policy_path dir);
   OpenRead (OsPath.join dir "log");
   Rmtree dir].

(** ** The sentences of the specification that the code does not satisfy

    Each is stated here as it is written, for one run, so that it can be
    evaluated. *)

(** "A key whose payload cannot be decoded is omitted from the ResultMap and
    the run continues and still returns results." *)
Definition undecodable_key_dropped (w : World) (self : RegAllocRunner)
    (file_paths : list string) (tf_policy_path : option string)
    (reward_only : bool)
    (cancellation_manager : option WorkerCancellationManager) : Prop :=
  forall dir items key value,
    reaches_loop w self file_paths tf_policy_path cancellation_manager dir items ->
    In (key, value) items ->
    (forall e, decode_trace w value <> Returned e) ->
    exists m,
      (run w self file_paths tf_policy_path reward_only cancellation_manager).1
      = Returned m /\ m !! key = None.

(** "With reward-only false, the returned trace has its reward feature list
    removed and the reward paired with it equals the last value of the float
    sequence under the reward feature list of the original trace." *)
Definition reward_is_last_of_sequence (w : World) (self : RegAllocRunner)
    (file_paths : list string) (tf_policy_path : option string)
    (cancellation_manager : option WorkerCancellationManager) : Prop :=
  forall dir items key value e m e' r,
    reaches_loop w self file_paths tf_policy_path cancellation_manager dir items ->
    NoDup items.*1 ->
    In (key, value) items ->
    decode_trace w value = Returned e ->
    (run w self file_paths tf_policy_path false cancellation_manager).1
    = Returned m ->
    m !! key = Some (Some e', r) ->
    reward_feature_list e' = None /\
    last (reward_float_sequence e) = Some r.

(** "The argument vector contains exactly one log-output flag, exactly one
    policy flag iff a policy path is given, and a configured launcher comes
    first, before the compiler binary and its arguments." *)
Definition command_line_shape (w : World) (self : RegAllocRunner)
    (file_paths : list string) (tf_policy_path : option string) (dir : string)
  : Prop :=
  let argv := argv_for w self file_paths tf_policy_path dir in
  count_flags is_log_output_flag argv = 1 /\
  (count_flags is_policy_flag argv = 1 <-> truthy tf_policy_path = true) /\
  (forall launcher, _launcher_path self = Some launcher ->
     truthy (Some launcher) = true ->
     exists rest, argv = launcher :: _clang_path self :: rest).

(** ** Inputs for the examples *)

Definition items_ok : list (string * Value) :=
  [("f", StringValue "ok"); ("g", StringValue "nodata")].

Definition items_garbage : list (string * Value) :=
  [("f", StringValue "ok"); ("g", StringValue "garbage")].

Definition items_empty_reward : list (string * Value) :=
  [("f", StringValue "ok"); ("g", StringValue "emptyreward")].

Definition items_no_reward : list (string * Value) :=
  [("f", StringValue "ok"); ("g", StringValue "noreward")].

Definition items_two_floats : list (string * Value) :=
  [("f", StringValue "twofloats")].

(** A world whose .cmd file already names a training log. *)
Definition world_logging_cmd : World :=
  table_world "/tmp/tmpk3x" ["-mllvm"; "-regalloc-training-log=/dev/null"]
    Success (Some items_ok) demo_traces.

Definition launcher_self : RegAllocRunner :=
  {| _clang_path := "/usr/bin/clang";
     _launcher_path := Some "/usr/bin/nice";
     _compilation_timeout := 60 |}.

(** A world in which the run is cancelled while the compiler is running. *)
Definition world_cancelled : World :=
  table_world "/tmp/tmpk3x" ["-cc1"; "-O2"] Killed None demo_traces.

(** ** Further vocabulary and inputs *)

(** What a dict returned in full mode looks like in reward-only mode: the
    same keys and rewards, no traces. *)
Definition reward_only_view (m : ResultMap) : ResultMap :=
  (fun p => (None, p.2)) <$> m.

Definition reward_only_outcome (o : outcome ResultMap) : outcome ResultMap :=
  match o with
  | Returned m => Returned (reward_only_view m)
  | Raised x => Raised x
  | Fatal msg => Fatal msg
  end.

(** The payload decodes to a trace for which [HasField('feature_lists')]
    holds. *)
Definition has_feature_data (w : World) (value : Value) : bool :=
  match decode_trace w value with
  | Returned e => HasField_feature_lists e
  | _ => false
  end.

Definition count_with_data (w : World) (items : list (string * Value)) : nat :=
  length (List.filter (fun kv => has_feature_data w kv.2) items).

(** A trace whose last reward entry is an int64 feature, not a float one. *)
Definition trace_int_reward : SequenceExample :=
  {| context := None;
     feature_lists := Some {| feature_list :=
       <["reward" := {| feature := [FloatList [5%Z]; Int64List [7%Z]] |}]> ∅ |} |}.

Definition more_traces : list (string * SequenceExample) :=
  demo_traces ++ [("intreward", trace_int_reward)].

Definition more_world (log : list (string * Value)) : World :=
  table_world "/tmp/tmpk3x" ["-cc1"; "-O2"] Success (Some log) more_traces.

Definition items_int_reward : list (string * Value) :=
  [("f", StringValue "ok"); ("g", StringValue "intreward");
   ("h", StringValue "garbage")].


(** * Properties *)

(** ** The embedding at work *)

Example join_log : OsPath.join "/tmp/tmpk3x" "log" = "/tmp/tmpk3x/log".
Proof. reflexivity. Qed.

Example run_items_ok :
  run (demo_world items_ok) demo_self ["a.bc"; "a.cmd"] None false None
  = (Returned (<["f" := (Some (without_reward trace_ok), 7%Z)]> ∅),
     [Mkdtemp "/tmp/tmpk3x";
      StartProcess
        ["/usr/bin/clang"; "-cc1"; "-O2"; "-x"; "ir"; "a.bc";
         "-mllvm"; "-thinlto-assume-merged";
         "-mllvm"; "-regalloc-enable-advisor=development";
         "-mllvm"; "-regalloc-training-log=/tmp/tmpk3x/log";
         "-o"; "/tmp/tmpk3x/native"];
      OpenRead "/tmp/tmpk3x/log";
      Rmtree "/tmp/tmpk3x"]).
Proof. vm_compute. reflexivity. Qed.

Example run_items_ok_reward_only :
  (run (demo_world items_ok) launcher_self ["a.bc"; "a.cmd"; "a.thinlto.bc"]
       (Some "/policy") true None).1
  = Returned (<["f" := (None, 7%Z)]> ∅).
Proof. vm_compute. reflexivity. Qed.

Example run_cancelled :
  run world_cancelled demo_self ["a.bc"; "a.cmd"] None false
      (Some (worker_cancellation_manager 0))
  = (Raised ProcessKilledError,
     [Mkdtemp "/tmp/tmpk3x";
      StartProcess
        (argv_for world_cancelled demo_self ["a.bc"; "a.cmd"] None
           "/tmp/tmpk3x");
      Rmtree "/tmp/tmpk3x"]).
Proof. vm_compute. reflexivity. Qed.

Example run_garbage :
  (run (demo_world items_garbage) demo_self ["a.bc"; "a.cmd"] None false None).1
  = Raised DecodeError.
Proof. vm_compute. reflexivity. Qed.

Example run_two_floats :
  (run (demo_world items_two_floats) demo_self ["a.bc"; "a.cmd"] None true
       None).1
  = Returned (<["f" := (None, 7%Z)]> ∅).
Proof. vm_compute. reflexivity. Qed.

(** ** The loop over the log items *)

Section Loop.

Context (w : World) (reward_only : bool).

(** The loop body is the extractor followed by one store: indexing the
    reward either raises or yields [last_entry_first_float], and the [del]
    on line 121 cannot raise because the lookup before it has made sure the
    key is there. *)
Lemma loop_body_extract key value (result : ResultMap) :
  loop_body w reward_only key value result =
  x ← extract w reward_only value; mret (store key x result).
Proof.
  unfold loop_body, extract.
  destruct (decode_trace w value) as [e| |]; simpl; try reflexivity.
  unfold HasField_feature_lists, last_entry_first_float, reward_feature_list,
    without_reward.
  destruct (feature_lists e) as [fls|] eqn:Hfls; simpl; [|reflexivity].
  unfold map_getitem.
  destruct (feature_list fls !! "reward") as [rl|] eqn:Hrl; simpl;
    [|reflexivity].
  unfold getitem_last, getitem_0.
  destruct (last (feature rl)) as [f|]; simpl; [|reflexivity].
  destruct (head (float_list_value f)) as [r|]; simpl; [|reflexivity].
  destruct reward_only; simpl; [reflexivity|].
  unfold map_delitem. rewrite Hrl. reflexivity.
Qed.

Lemma loop_body_not_fatal key value (result : ResultMap) msg :
  loop_body w reward_only key value result <> Fatal msg.
Proof.
  rewrite loop_body_extract. unfold extract, decode_trace.
  destruct (b64decode w (string_value value)); simpl; [|discriminate].
  destruct (SequenceExample_ParseFromString w b) as [e|]; simpl;
    [|discriminate].
  destruct (feature_lists e); simpl; [|discriminate].
  destruct (last_entry_first_float e); simpl; discriminate.
Qed.

Lemma extract_not_fatal value msg : extract w reward_only value <> Fatal msg.
Proof.
  intros H. apply (loop_body_not_fatal "" value ∅ msg).
  rewrite loop_body_extract, H. reflexivity.
Qed.

Lemma for_items_cons key value rest (result : ResultMap) :
  for_items w reward_only ((key, value) :: rest) result =
  x ← extract w reward_only value;
  for_items w reward_only rest (store key x result).
Proof.
  simpl. rewrite loop_body_extract.
  destruct (extract w reward_only value); reflexivity.
Qed.

Lemma for_items_app l1 l2 (result : ResultMap) :
  for_items w reward_only (l1 ++ l2) result =
  for_items w reward_only l1 result ≫= for_items w reward_only l2.
Proof.
  revert result. induction l1 as [|[k v] l1 IH]; intros result; [reflexivity|].
  simpl. destruct (loop_body w reward_only k v result); simpl; auto.
Qed.

Lemma for_items_not_fatal items (result : ResultMap) msg :
  for_items w reward_only items result <> Fatal msg.
Proof.
  revert result. induction items as [|[k v] rest IH]; intros result.
  - discriminate.
  - simpl. destruct (loop_body w reward_only k v result) eqn:Hb; simpl.
    + apply IH.
    + discriminate.
    + exfalso. eapply loop_body_not_fatal; eauto.
Qed.

(** A skipped entry can be left out of the container: the dict and the
    outcome are the same. *)
Lemma for_items_skip pre key value post (result : ResultMap) :
  extract w reward_only value = Returned None ->
  for_items w reward_only (pre ++ (key, value) :: post) result =
  for_items w reward_only (pre ++ post) result.
Proof.
  intros Hx. rewrite !for_items_app.
  destruct (for_items w reward_only pre result); simpl; try reflexivity.
  rewrite loop_body_extract, Hx. reflexivity.
Qed.

(** An entry whose extraction raises stops the loop, at the latest there. *)
Lemma for_items_raises pre key value post (result : ResultMap) x :
  extract w reward_only value = Raised x ->
  exists x', for_items w reward_only (pre ++ (key, value) :: post) result
             = Raised x' /\
             (forall r', for_items w reward_only pre result = Returned r' ->
                         x' = x).
Proof.
  intros Hx. rewrite for_items_app.
  destruct (for_items w reward_only pre result) as [r'|x'|msg] eqn:Hpre; simpl.
  - rewrite loop_body_extract, Hx. simpl. exists x. split; auto.
  - exists x'. split; [reflexivity|]. intros r' Hr'. discriminate.
  - exfalso. eapply for_items_not_fatal; eauto.
Qed.

(** When the loop returns, every entry was extracted without an error. *)
Lemma for_items_returned_all items (result m : ResultMap) :
  for_items w reward_only items result = Returned m ->
  forall key value, In (key, value) items ->
    exists x, extract w reward_only value = Returned x.
Proof.
  revert result. induction items as [|[k v] rest IH]; intros result Hm key value Hin.
  - destruct Hin.
  - rewrite for_items_cons in Hm.
    destruct (extract w reward_only v) as [x| |] eqn:Hx; simpl in Hm;
      try discriminate.
    destruct Hin as [Heq|Hin].
    + inversion Heq; subst. eauto.
    + eapply IH; eauto.
Qed.

(** Keys that do not occur in the container keep their old binding. *)
Lemma for_items_other items (result m : ResultMap) key :
  for_items w reward_only items result = Returned m ->
  key ∉ items.*1 ->
  m !! key = result !! key.
Proof.
  revert result. induction items as [|[k v] rest IH]; intros result Hm Hk.
  - simpl in Hm. inversion Hm. reflexivity.
  - rewrite for_items_cons in Hm.
    destruct (extract w reward_only v) as [x| |] eqn:Hx; simpl in Hm;
      try discriminate.
    simpl in Hk. apply not_elem_of_cons in Hk as [Hne Hk].
    rewrite (IH _ Hm Hk). destruct x as [p|]; simpl; [|reflexivity].
    apply lookup_insert_ne. congruence.
Qed.

(** With distinct keys, the binding of a key of the container is what the
    extractor made of its payload. *)
Lemma for_items_lookup items (result m : ResultMap) key value x :
  for_items w reward_only items result = Returned m ->
  NoDup items.*1 ->
  In (key, value) items ->
  extract w reward_only value = Returned x ->
  m !! key = store key x result !! key.
Proof.
  revert result. induction items as [|[k v] rest IH];
    intros result Hm Hnd Hin Hx.
  - destruct Hin.
  - rewrite for_items_cons in Hm. simpl in Hnd.
    apply NoDup_cons in Hnd as [Hk Hnd].
    destruct Hin as [Heq|Hin].
    + inversion Heq; subst. rewrite Hx in Hm. simpl in Hm.
      eapply for_items_other; eauto.
    + destruct (extract w reward_only v) as [y| |] eqn:Hy; simpl in Hm;
        try discriminate.
      rewrite (IH _ Hm Hnd Hin Hx).
      assert (key <> k) as Hne.
      { intros ->. apply Hk. apply list_elem_of_fmap.
        exists (k, value). split; [reflexivity|]. apply list_elem_of_In, Hin. }
      destruct x as [p|], y as [q|]; simpl;
        rewrite ?lookup_insert_eq, ?lookup_insert_ne by congruence; reflexivity.
Qed.

(** Every binding of the returned dict was already there or was stored for
    an entry of the container. *)
Lemma for_items_origin items (result m : ResultMap) key p :
  for_items w reward_only items result = Returned m ->
  m !! key = Some p ->
  result !! key = Some p \/
  exists value, In (key, value) items /\
                extract w reward_only value = Returned (Some p).
Proof.
  revert result. induction items as [|[k v] rest IH]; intros result Hm Hp.
  - simpl in Hm. inversion Hm; subst. auto.
  - rewrite for_items_cons in Hm.
    destruct (extract w reward_only v) as [y| |] eqn:Hy; simpl in Hm;
      try discriminate.
    destruct (IH _ Hm Hp) as [Hold|(value & Hin & Hx)].
    + destruct y as [q|]; simpl in Hold; [|auto].
      destruct (decide (k = key)) as [->|Hne].
      * rewrite lookup_insert_eq in Hold. inversion Hold; subst.
        right. exists v. split; [left; reflexivity|assumption].
      * rewrite lookup_insert_ne in Hold by assumption. auto.
    + right. exists value. split; [right; assumption|assumption].
Qed.

End Loop.

(** ** The shape of a run *)

Lemma classic_arity (file_paths : list string) :
  valid_arity file_paths \/ ~ valid_arity file_paths.
Proof.
  unfold valid_arity.
  destruct (decide (length file_paths = 2)); [auto|].
  destruct (decide (length file_paths = 3)); [auto|].
  right. intros [?|?]; contradiction.
Qed.

Section Run.

Context (w : World) (self : RegAllocRunner) (file_paths : list string)
  (tf_policy_path : option string) (reward_only : bool)
  (cancellation_manager : option WorkerCancellationManager).

Local Abbreviation the_run :=
  (run w self file_paths tf_policy_path reward_only cancellation_manager).

Lemma valid_arity_cases :
  valid_arity file_paths ->
  (exists ir cmd, file_paths = [ir; cmd]) \/
  (exists ir cmd idx, file_paths = [ir; cmd; idx]).
Proof.
  intros [H|H]; destruct file_paths as [|a [|b [|c [|d l]]]];
    simpl in H; try discriminate; eauto.
Qed.

(** No directory: [mkdtemp] raised and nothing else happened. *)
Lemma run_no_dir :
  mkdtemp w = None -> the_run = (Raised OSError, []).
Proof.
  intros H. unfold run, _compile_fn, tempfile_mkdtemp, mbind, M_bind, m_bind, lift.
  rewrite H. reflexivity.
Qed.

(** Wrong arity: the directory is made on line 72, then [logging.fatal] on
    line 83 ends the run, outside the [try]. *)
Lemma run_bad_arity dir :
  mkdtemp w = Some dir -> ~ valid_arity file_paths ->
  the_run = (Fatal "Expected 2 or 3 file paths", [Mkdtemp dir]).
Proof.
  intros H Hbad.
  unfold run, _compile_fn, tempfile_mkdtemp, mbind, M_bind, m_bind, lift.
  rewrite H. simpl.
  destruct file_paths as [|a [|b [|c [|d l]]]]; try reflexivity;
    exfalso; apply Hbad; unfold valid_arity; simpl; auto.
Qed.

(** Right arity: everything happens inside the [try], and [rmtree] is the
    last event whatever the body did. *)
Lemma run_valid dir :
  mkdtemp w = Some dir -> valid_arity file_paths ->
  let argv := argv_for w self file_paths tf_policy_path dir in
  the_run =
  match process_failure
          (run_process w argv (_compilation_timeout self) cancellation_manager)
  with
  | Some e => (Raised e, [Mkdtemp dir; StartProcess argv; Rmtree dir])
  | None =>
      (match read_file w (OsPath.join dir "log") with
       | None => Raised FileNotFoundError
       | Some content =>
           match Struct_ParseFromString w content with
           | None => Raised DecodeError
           | Some se => for_items w reward_only (fields se) ∅
           end
       end,
       full_events w self file_paths tf_policy_path dir)
  end.
Proof.
  intros H Hv. apply valid_arity_cases in Hv.
  destruct Hv as [(ir & cmd & ->)|(ir & cmd & idx & ->)];
    unfold run, _compile_fn, tempfile_mkdtemp, mbind, M_bind, m_bind, lift;
    rewrite H; simpl;
    unfold try_finally, try_body, start_cancellable_process, io_read,
      gfile_rmtree, emit, mbind, M_bind, m_bind, lift, mret, M_ret, m_ret,
      full_events, argv_for; simpl.
  all: match goal with
       | |- context [process_failure ?r] => destruct (process_failure r)
       end; simpl; [reflexivity|].
  all: destruct (read_file w (OsPath.join dir "log")) as [content|]; simpl;
         [|reflexivity].
  all: destruct (Struct_ParseFromString w content) as [se|]; simpl;
         [|reflexivity].
  all: destruct (for_items w reward_only (fields se) ∅) eqn:Hloop;
         try reflexivity.
  all: exfalso; eapply for_items_not_fatal; eauto.
Qed.

(** A run that reaches the loop ends as the loop does. *)
Lemma run_reaches_loop dir items :
  reaches_loop w self file_paths tf_policy_path cancellation_manager dir items ->
  the_run = (for_items w reward_only items ∅,
             full_events w self file_paths tf_policy_path dir).
Proof.
  intros (Hdir & Hv & Hp & Hlog).
  rewrite (run_valid dir Hdir Hv). simpl. rewrite Hp. simpl.
  unfold log_items in Hlog.
  destruct (read_file w (OsPath.join dir "log")) as [content|];
    simpl in Hlog; [|discriminate].
  destruct (Struct_ParseFromString w content) as [se|]; simpl in Hlog;
    [|discriminate].
  inversion Hlog; subst. reflexivity.
Qed.

(** A run that returns a dict has reached the loop, and the loop returned
    that dict. *)
Lemma run_returned m :
  the_run.1 = Returned m ->
  exists dir items,
    reaches_loop w self file_paths tf_policy_path cancellation_manager dir items /\
    for_items w reward_only items ∅ = Returned m.
Proof.
  intros Hm.
  destruct (mkdtemp w) as [dir|] eqn:Hdir;
    [|rewrite (run_no_dir Hdir) in Hm; discriminate].
  destruct (classic_arity file_paths) as [Hv|Hbad];
    [|rewrite (run_bad_arity dir Hdir Hbad) in Hm; discriminate].
  rewrite (run_valid dir Hdir Hv) in Hm. simpl in Hm.
  destruct (run_process w (argv_for w self file_paths tf_policy_path dir)
              (_compilation_timeout self) cancellation_manager) eqn:Hp;
    simpl in Hm; try discriminate.
  destruct (read_file w (OsPath.join dir "log")) as [content|] eqn:Hr;
    simpl in Hm; [|discriminate].
  destruct (Struct_ParseFromString w content) as [se|] eqn:Hs; simpl in Hm;
    [|discriminate].
  exists dir, (fields se). split; [|assumption].
  repeat split; try assumption.
  unfold log_items. rewrite Hr. simpl. rewrite Hs. reflexivity.
Qed.

End Run.

(** ** The extractor *)

Lemma extract_skip w reward_only value e :
  decode_trace w value = Returned e ->
  feature_lists e = None ->
  extract w reward_only value = Returned None.
Proof.
  intros Hd Hf. unfold extract. rewrite Hd. simpl. rewrite Hf. reflexivity.
Qed.

Lemma extract_no_value w reward_only value e :
  decode_trace w value = Returned e ->
  feature_lists e <> None ->
  last_entry_first_float e = None ->
  extract w reward_only value = Raised IndexError.
Proof.
  intros Hd Hf Hr. unfold extract. rewrite Hd. simpl.
  destruct (feature_lists e); [|contradiction]. rewrite Hr. reflexivity.
Qed.

Lemma extract_value w reward_only value e r :
  decode_trace w value = Returned e ->
  feature_lists e <> None ->
  last_entry_first_float e = Some r ->
  extract w reward_only value =
  Returned (Some (if reward_only then None else Some (without_reward e), r)).
Proof.
  intros Hd Hf Hr. unfold extract. rewrite Hd. simpl.
  destruct (feature_lists e); [|contradiction]. rewrite Hr. reflexivity.
Qed.

Lemma extract_undecodable w reward_only value x :
  decode_trace w value = Raised x ->
  extract w reward_only value = Raised x.
Proof. intros Hd. unfold extract. rewrite Hd. reflexivity. Qed.

(** What stands behind a stored pair. *)
Lemma extract_stored w reward_only value p :
  extract w reward_only value = Returned (Some p) ->
  exists e r,
    decode_trace w value = Returned e /\
    feature_lists e <> None /\
    last_entry_first_float e = Some r /\
    p = (if reward_only then None else Some (without_reward e), r).
Proof.
  unfold extract. intros H.
  destruct (decode_trace w value) as [e| |]; simpl in H; try discriminate.
  destruct (feature_lists e) eqn:Hf; simpl in H; [|discriminate].
  destruct (last_entry_first_float e) as [r|] eqn:Hr; simpl in H;
    [|discriminate].
  inversion H; subst. exists e, r. repeat split; auto. congruence.
Qed.

Lemma decode_trace_not_fatal w value msg : decode_trace w value <> Fatal msg.
Proof.
  unfold decode_trace.
  destruct (b64decode w (string_value value)); simpl; [|discriminate].
  destruct (SequenceExample_ParseFromString w b); discriminate.
Qed.

(** The reward list is gone from a trace that went through [without_reward]. *)
Lemma without_reward_absent e : reward_feature_list (without_reward e) = None.
Proof.
  unfold reward_feature_list, without_reward. simpl.
  destruct (feature_lists e); simpl; [|reflexivity].
  apply lookup_delete_eq.
Qed.

(** An empty reward list and a missing one read the same. *)
Lemma no_entry_no_value e :
  (reward_feature_list e = None \/
   exists rl, reward_feature_list e = Some rl /\ feature rl = []) ->
  last_entry_first_float e = None.
Proof.
  unfold last_entry_first_float.
  intros [->|(rl & -> & Hrl)]; simpl; [reflexivity|].
  rewrite Hrl. reflexivity.
Qed.

(** When the last reward entry holds one float, that float is also the last
    one of the whole float sequence. *)
Lemma single_float_last e rl f r :
  reward_feature_list e = Some rl ->
  last (feature rl) = Some f ->
  length (float_list_value f) = 1 ->
  last_entry_first_float e = Some r ->
  last (reward_float_sequence e) = Some r.
Proof.
  intros Hrl Hlast Hlen Hr.
  unfold last_entry_first_float in Hr. unfold reward_float_sequence.
  rewrite Hrl in *. simpl in Hr. rewrite Hlast in Hr. simpl in Hr.
  apply last_Some in Hlast as [l' ->].
  rewrite fmap_app, concat_app. simpl. rewrite app_nil_r.
  destruct (float_list_value f) as [|a [|b t]]; simpl in *; try discriminate.
  inversion Hr; subst. apply last_snoc.
Qed.

(** ** The run as a whole *)

(** C1.  For a tuple whose length is neither 2 nor 3 the run is ended by
    [logging.fatal] (InvalidRequest) before any process is started, but not
    before the WorkingArea is created: the only event of the run is the
    [mkdtemp] of line 72, and no [rmtree] follows it. *)
Theorem arity_violation_after_mkdtemp
    (w : World) (self : RegAllocRunner) (file_paths : list string)
    (tf_policy_path : option string) (reward_only : bool)
    (cancellation_manager : option WorkerCancellationManager) (dir : string) :
  mkdtemp w = Some dir ->
  length file_paths <> 2 -> length file_paths <> 3 ->
  run w self file_paths tf_policy_path reward_only cancellation_manager
  = (Fatal "Expected 2 or 3 file paths", [Mkdtemp dir]).
Proof.
  intros Hdir H2 H3. apply run_bad_arity; [assumption|].
  intros [?|?]; contradiction.
Qed.

Lemma arity_violation_after_mkdtemp_witness :
  run (demo_world items_ok) demo_self ["a.bc"] None false None
  = (Fatal "Expected 2 or 3 file paths", [Mkdtemp "/tmp/tmpk3x"]).
Proof.
  apply (arity_violation_after_mkdtemp (demo_world items_ok) demo_self
           ["a.bc"] None false None "/tmp/tmpk3x").
  - reflexivity.
  - simpl; lia.
  - simpl; lia.
Defined.

(** C5.  Whenever a run in which the WorkingArea was created hands a result
    or a failure back to its caller, the directory was made first, removed
    last, and neither made nor removed in between. *)
Theorem working_dir_removed
    (w : World) (self : RegAllocRunner) (file_paths : list string)
    (tf_policy_path : option string) (reward_only : bool)
    (cancellation_manager : option WorkerCancellationManager) (dir : string) :
  let r := run w self file_paths tf_policy_path reward_only
               cancellation_manager in
  In (Mkdtemp dir) r.2 ->
  handed_back r.1 ->
  exists mid,
    r.2 = Mkdtemp dir :: mid ++ [Rmtree dir] /\
    forall d, ~ In (Mkdtemp d) mid /\ ~ In (Rmtree d) mid.
Proof.
  intros r Hin Hback. subst r.
  destruct (mkdtemp w) as [dir'|] eqn:Hdir;
    [|rewrite (run_no_dir _ _ _ _ _ _ Hdir) in Hin; destruct Hin].
  destruct (classic_arity file_paths) as [Hv|Hbad];
    [|rewrite (run_bad_arity _ _ _ _ _ _ dir' Hdir Hbad) in Hback;
      destruct Hback].
  rewrite (run_valid _ _ _ _ _ _ dir' Hdir Hv) in Hin |- *.
  simpl in Hin |- *.
  destruct (process_failure _); simpl in Hin |- *.
  - assert (dir' = dir) as ->
      by (destruct Hin as [H|[H|[H|[]]]]; congruence).
    eexists [_]. split; [reflexivity|].
    intros d; split; intros [H|[]]; discriminate.
  - assert (dir' = dir) as ->
      by (destruct Hin as [H|[H|[H|[H|[]]]]]; congruence).
    eexists [_; _]. split; [reflexivity|].
    intros d; split; intros [H|[H|[]]]; discriminate.
Qed.

Lemma working_dir_removed_witness :
  exists mid,
    (run world_cancelled demo_self ["a.bc"; "a.cmd"] None false
         (Some (worker_cancellation_manager 0))).2
    = Mkdtemp "/tmp/tmpk3x" :: mid ++ [Rmtree "/tmp/tmpk3x"] /\
    forall d, ~ In (Mkdtemp d) mid /\ ~ In (Rmtree d) mid.
Proof.
  apply (working_dir_removed world_cancelled demo_self ["a.bc"; "a.cmd"]
           None false (Some (worker_cancellation_manager 0)) "/tmp/tmpk3x").
  - vm_compute. left. reflexivity.
  - vm_compute. exact I.
Defined.

(** C6.  A run ends in exactly one of three ways.  If it returns a dict, the
    dict is complete: the loop went over every item of the log without an
    error, every item with feature data is bound to what was extracted from
    it, and nothing else is bound.  Otherwise there is one exception, or the
    fatal error, and no dict. *)
Theorem complete_result_or_failure
    (w : World) (self : RegAllocRunner) (file_paths : list string)
    (tf_policy_path : option string) (reward_only : bool)
    (cancellation_manager : option WorkerCancellationManager) :
  let r := run w self file_paths tf_policy_path reward_only
               cancellation_manager in
  (exists m dir items,
     r.1 = Returned m /\
     reaches_loop w self file_paths tf_policy_path cancellation_manager
       dir items /\
     (forall key value, In (key, value) items ->
        exists x, extract w reward_only value = Returned x /\
                  (NoDup items.*1 -> m !! key = x)) /\
     (forall key p, m !! key = Some p ->
        exists value, In (key, value) items /\
                      extract w reward_only value = Returned (Some p))) \/
  (exists x, r.1 = Raised x) \/
  (exists msg, r.1 = Fatal msg).
Proof.
  intros r. subst r.
  destruct (run w self file_paths tf_policy_path reward_only
              cancellation_manager).1 as [m|x|msg] eqn:Hrun;
    [left|right; left; eauto|right; right; eauto].
  destruct (run_returned _ _ _ _ _ _ m Hrun) as (dir & items & Hreach & Hloop).
  exists m, dir, items.
  split; [reflexivity|]. split; [assumption|]. split.
  - intros key value Hin.
    destruct (for_items_returned_all _ _ _ _ _ Hloop key value Hin) as [x Hx].
    exists x. split; [assumption|]. intros Hnd.
    rewrite (for_items_lookup _ _ _ _ _ key value x Hloop Hnd Hin Hx).
    destruct x as [p|]; simpl; [apply lookup_insert_eq|apply lookup_empty].
  - intros key p Hp.
    destruct (for_items_origin _ _ _ _ _ key p Hloop Hp) as [Hold|Hnew];
      [rewrite lookup_empty in Hold; discriminate|assumption].
Qed.

(** C7.  A trace without feature-list data is skipped: the run ends as it
    would without that item in the log, and the dict it returns has no
    binding for the key. *)
Theorem no_feature_data_skipped
    (w : World) (self : RegAllocRunner) (file_paths : list string)
    (tf_policy_path : option string) (reward_only : bool)
    (cancellation_manager : option WorkerCancellationManager)
    (dir : string) (pre post : list (string * Value))
    (key : string) (value : Value) (e : SequenceExample) :
  reaches_loop w self file_paths tf_policy_path cancellation_manager dir
    (pre ++ (key, value) :: post) ->
  NoDup (pre ++ (key, value) :: post).*1 ->
  decode_trace w value = Returned e ->
  feature_lists e = None ->
  let r := run w self file_paths tf_policy_path reward_only
               cancellation_manager in
  r.1 = for_items w reward_only (pre ++ post) ∅ /\
  forall m, r.1 = Returned m -> m !! key = None.
Proof.
  intros Hreach Hnd Hd Hf r. subst r.
  rewrite (run_reaches_loop _ _ _ _ reward_only _ _ _ Hreach). simpl.
  pose proof (extract_skip w reward_only value e Hd Hf) as Hx.
  split; [apply for_items_skip; assumption|].
  intros m Hm.
  rewrite (for_items_lookup _ _ _ _ _ key value None Hm Hnd); auto.
  apply in_elt.
Qed.

Lemma no_feature_data_skipped_witness :
  (run (demo_world items_ok) demo_self ["a.bc"; "a.cmd"] None false None).1
  = for_items (demo_world items_ok) false [("f", StringValue "ok")] ∅ /\
  forall m,
    (run (demo_world items_ok) demo_self ["a.bc"; "a.cmd"] None false None).1
    = Returned m -> m !! "g" = None.
Proof.
  apply (no_feature_data_skipped (demo_world items_ok) demo_self
           ["a.bc"; "a.cmd"] None false None "/tmp/tmpk3x"
           [("f", StringValue "ok")] [] "g" (StringValue "nodata")
           trace_no_data).
  - repeat split; try reflexivity. left; reflexivity.
  - refine (bool_decide_unpack _ _). vm_compute. exact I.
  - reflexivity.
  - reflexivity.
Defined.

(** C8.  In reward-only mode every binding of the returned dict is
    [(None, r)], with [r] the reward read from the trace stored in the log
    under that key. *)
Theorem reward_only_no_trace
    (w : World) (self : RegAllocRunner) (file_paths : list string)
    (tf_policy_path : option string)
    (cancellation_manager : option WorkerCancellationManager)
    (m : ResultMap) :
  (run w self file_paths tf_policy_path true cancellation_manager).1
  = Returned m ->
  forall key p, m !! key = Some p ->
    p.1 = None /\
    exists dir items value e,
      reaches_loop w self file_paths tf_policy_path cancellation_manager
        dir items /\
      In (key, value) items /\
      decode_trace w value = Returned e /\
      last_entry_first_float e = Some p.2.
Proof.
  intros Hrun key p Hp.
  destruct (run_returned _ _ _ _ _ _ m Hrun) as (dir & items & Hreach & Hloop).
  destruct (for_items_origin _ _ _ _ _ key p Hloop Hp) as [Hold|Hnew];
    [rewrite lookup_empty in Hold; discriminate|].
  destruct Hnew as (value & Hin & Hx).
  apply extract_stored in Hx as (e & r & Hd & Hf & Hr & ->). simpl.
  split; [reflexivity|]. exists dir, items, value, e. auto.
Qed.

Lemma reward_only_no_trace_witness :
  (None : option SequenceExample, 7%Z).1 = None /\
  exists dir items value e,
    reaches_loop (demo_world items_ok) demo_self ["a.bc"; "a.cmd"]
      (Some "/policy") None dir items /\
    In ("f", value) items /\
    decode_trace (demo_world items_ok) value = Returned e /\
    last_entry_first_float e = Some (None : option SequenceExample, 7%Z).2.
Proof.
  apply (reward_only_no_trace (demo_world items_ok) demo_self
           ["a.bc"; "a.cmd"] (Some "/policy") None
           (<["f" := (None, 7%Z)]> ∅)).
  - vm_compute. reflexivity.
  - apply lookup_insert_eq.
Defined.

(** An item whose extraction raises ends the run with an exception, after
    the directory has been removed. *)
Lemma run_raises_at
    (w : World) (self : RegAllocRunner) (file_paths : list string)
    (tf_policy_path : option string) (reward_only : bool)
    (cancellation_manager : option WorkerCancellationManager)
    (dir : string) (pre post : list (string * Value))
    (key : string) (value : Value) (x : exn) :
  reaches_loop w self file_paths tf_policy_path cancellation_manager dir
    (pre ++ (key, value) :: post) ->
  extract w reward_only value = Raised x ->
  exists x',
    run w self file_paths tf_policy_path reward_only cancellation_manager
    = (Raised x', full_events w self file_paths tf_policy_path dir) /\
    last (full_events w self file_paths tf_policy_path dir)
    = Some (Rmtree dir) /\
    (forall m', for_items w reward_only pre ∅ = Returned m' -> x' = x).
Proof.
  intros Hreach Hx.
  rewrite (run_reaches_loop _ _ _ _ reward_only _ _ _ Hreach).
  destruct (for_items_raises w reward_only pre key value post ∅ x Hx)
    as (x' & Hloop & Hfirst).
  exists x'. rewrite Hloop. auto.
Qed.

(** C3.  A trace whose reward feature list is there but empty makes the
    extraction fail with IndexError (MissingReward), and the run then returns
    no dict: it raises, after removing the WorkingArea, and what it raises is
    this IndexError unless an earlier item already failed. *)
Theorem empty_reward_list_fails
    (w : World) (self : RegAllocRunner) (file_paths : list string)
    (tf_policy_path : option string) (reward_only : bool)
    (cancellation_manager : option WorkerCancellationManager)
    (dir : string) (pre post : list (string * Value))
    (key : string) (value : Value) (e : SequenceExample) (rl : FeatureList) :
  reaches_loop w self file_paths tf_policy_path cancellation_manager dir
    (pre ++ (key, value) :: post) ->
  decode_trace w value = Returned e ->
  reward_feature_list e = Some rl ->
  feature rl = [] ->
  (forall result, loop_body w reward_only key value result = Raised IndexError) /\
  exists x,
    run w self file_paths tf_policy_path reward_only cancellation_manager
    = (Raised x, full_events w self file_paths tf_policy_path dir) /\
    last (full_events w self file_paths tf_policy_path dir)
    = Some (Rmtree dir) /\
    (forall m', for_items w reward_only pre ∅ = Returned m' ->
                x = IndexError).
Proof.
  intros Hreach Hd Hrl Hempty.
  assert (extract w reward_only value = Raised IndexError) as Hx.
  { apply (extract_no_value w reward_only value e Hd).
    - unfold reward_feature_list in Hrl.
      destruct (feature_lists e); [discriminate|discriminate].
    - apply no_entry_no_value. right. eauto. }
  split; [intros result; rewrite loop_body_extract, Hx; reflexivity|].
  eapply run_raises_at; eauto.
Qed.

Lemma empty_reward_list_fails_witness :
  (forall result,
     loop_body (demo_world items_empty_reward) false "g"
       (StringValue "emptyreward") result = Raised IndexError) /\
  exists x,
    run (demo_world items_empty_reward) demo_self ["a.bc"; "a.cmd"] None
        false None
    = (Raised x,
       full_events (demo_world items_empty_reward) demo_self
         ["a.bc"; "a.cmd"] None "/tmp/tmpk3x") /\
    last (full_events (demo_world items_empty_reward) demo_self
            ["a.bc"; "a.cmd"] None "/tmp/tmpk3x")
    = Some (Rmtree "/tmp/tmpk3x") /\
    (forall m',
       for_items (demo_world items_empty_reward) false
         [("f", StringValue "ok")] ∅ = Returned m' ->
       x = IndexError).
Proof.
  apply (empty_reward_list_fails (demo_world items_empty_reward) demo_self
           ["a.bc"; "a.cmd"] None false None "/tmp/tmpk3x"
           [("f", StringValue "ok")] [] "g" (StringValue "emptyreward")
           trace_empty_reward (rewards [])).
  - repeat split; try reflexivity. left; reflexivity.
  - reflexivity.
  - reflexivity.
  - reflexivity.
Defined.

(** C10.  A trace with feature lists but no "reward" list fails in the same
    way: the lookup on line 116 creates an empty list, indexing it raises
    IndexError exactly as for a reward list that is there but empty, and the
    run raises instead of skipping the key. *)
Theorem absent_reward_list_fails
    (w : World) (self : RegAllocRunner) (file_paths : list string)
    (tf_policy_path : option string) (reward_only : bool)
    (cancellation_manager : option WorkerCancellationManager)
    (dir : string) (pre post : list (string * Value))
    (key : string) (value : Value) (e : SequenceExample) (fls : FeatureLists) :
  reaches_loop w self file_paths tf_policy_path cancellation_manager dir
    (pre ++ (key, value) :: post) ->
  decode_trace w value = Returned e ->
  feature_lists e = Some fls ->
  feature_list fls !! "reward" = None ->
  map_getitem (feature_list fls) "reward"
  = ({| feature := [] |}, <["reward" := {| feature := [] |}]> (feature_list fls)) /\
  loop_body w reward_only key value ∅ = Raised IndexError /\
  (forall value' e' rl,
     decode_trace w value' = Returned e' ->
     reward_feature_list e' = Some rl -> feature rl = [] ->
     loop_body w reward_only key value' ∅
     = loop_body w reward_only key value ∅) /\
  exists x,
    run w self file_paths tf_policy_path reward_only cancellation_manager
    = (Raised x, full_events w self file_paths tf_policy_path dir) /\
    (forall m', for_items w reward_only pre ∅ = Returned m' ->
                x = IndexError).
Proof.
  intros Hreach Hd Hf Hrl.
  assert (extract w reward_only value = Raised IndexError) as Hx.
  { apply (extract_no_value w reward_only value e Hd).
    - congruence.
    - apply no_entry_no_value. left.
      unfold reward_feature_list. rewrite Hf. assumption. }
  split; [unfold map_getitem; rewrite Hrl; reflexivity|].
  split; [rewrite loop_body_extract, Hx; reflexivity|].
  split.
  - intros value' e' rl Hd' Hrl' Hempty.
    rewrite !loop_body_extract, Hx.
    rewrite (extract_no_value w reward_only value' e' Hd'); [reflexivity| |].
    + unfold reward_feature_list in Hrl'.
      destruct (feature_lists e'); discriminate.
    + apply no_entry_no_value. right. eauto.
  - destruct (run_raises_at _ _ _ _ _ _ _ _ _ _ _ _ Hreach Hx)
      as (x & Hrun & _ & Hfirst).
    eauto.
Qed.

Lemma absent_reward_list_fails_witness :
  map_getitem (feature_list lists_no_reward) "reward"
  = ({| feature := [] |},
     <["reward" := {| feature := [] |}]> (feature_list lists_no_reward)) /\
  loop_body (demo_world items_no_reward) true "g" (StringValue "noreward") ∅
  = Raised IndexError /\
  (forall value' e' rl,
     decode_trace (demo_world items_no_reward) value' = Returned e' ->
     reward_feature_list e' = Some rl -> feature rl = [] ->
     loop_body (demo_world items_no_reward) true "g" value' ∅
     = loop_body (demo_world items_no_reward) true "g"
         (StringValue "noreward") ∅) /\
  exists x,
    run (demo_world items_no_reward) demo_self ["a.bc"; "a.cmd"; "a.thinlto.bc"]
        None true None
    = (Raised x,
       full_events (demo_world items_no_reward) demo_self
         ["a.bc"; "a.cmd"; "a.thinlto.bc"] None "/tmp/tmpk3x") /\
    (forall m',
       for_items (demo_world items_no_reward) true
         [("f", StringValue "ok")] ∅ = Returned m' ->
       x = IndexError).
Proof.
  apply (absent_reward_list_fails (demo_world items_no_reward) demo_self
           ["a.bc"; "a.cmd"; "a.thinlto.bc"] None true None "/tmp/tmpk3x"
           [("f", StringValue "ok")] [] "g" (StringValue "noreward")
           trace_no_reward lists_no_reward).
  - repeat split; try reflexivity. right; reflexivity.
  - reflexivity.
  - reflexivity.
  - reflexivity.
Defined.

(** C2, as the code has it.  A payload that cannot be decoded is not dropped:
    the exception of the decoder leaves the loop, the run returns no dict and
    raises, after removing the WorkingArea. *)
Theorem undecodable_payload_aborts_run
    (w : World) (self : RegAllocRunner) (file_paths : list string)
    (tf_policy_path : option string) (reward_only : bool)
    (cancellation_manager : option WorkerCancellationManager)
    (dir : string) (items : list (string * Value))
    (key : string) (value : Value) :
  reaches_loop w self file_paths tf_policy_path cancellation_manager dir
    items ->
  In (key, value) items ->
  (forall e, decode_trace w value <> Returned e) ->
  exists x,
    run w self file_paths tf_policy_path reward_only cancellation_manager
    = (Raised x, full_events w self file_paths tf_policy_path dir) /\
    last (full_events w self file_paths tf_policy_path dir)
    = Some (Rmtree dir).
Proof.
  intros Hreach Hin Hbad.
  apply in_split in Hin as (pre & post & ->).
  destruct (decode_trace w value) as [e|x|msg] eqn:Hd.
  - exfalso. apply (Hbad e). reflexivity.
  - destruct (run_raises_at w self file_paths tf_policy_path reward_only
                cancellation_manager dir pre post key value x Hreach
                (extract_undecodable w reward_only value x Hd))
      as (x' & Hrun & Hlast & _).
    eauto.
  - exfalso. eapply decode_trace_not_fatal; eauto.
Qed.

Lemma undecodable_payload_aborts_run_witness :
  exists x,
    run (demo_world items_garbage) demo_self ["a.bc"; "a.cmd"] None false None
    = (Raised x,
       full_events (demo_world items_garbage) demo_self ["a.bc"; "a.cmd"]
         None "/tmp/tmpk3x") /\
    last (full_events (demo_world items_garbage) demo_self ["a.bc"; "a.cmd"]
            None "/tmp/tmpk3x")
    = Some (Rmtree "/tmp/tmpk3x").
Proof.
  apply (undecodable_payload_aborts_run (demo_world items_garbage) demo_self
           ["a.bc"; "a.cmd"] None false None "/tmp/tmpk3x" items_garbage
           "g" (StringValue "garbage")).
  - repeat split; try reflexivity. left; reflexivity.
  - right. left. reflexivity.
  - intros e. vm_compute. discriminate.
Defined.

(** C2, as written, fails: with one good and one undecodable payload in the
    log the run returns no dict at all. *)
Lemma undecodable_key_not_dropped :
  ~ undecodable_key_dropped (demo_world items_garbage) demo_self
      ["a.bc"; "a.cmd"] None false None.
Proof.
  intros H.
  destruct (H "/tmp/tmpk3x" items_garbage "g" (StringValue "garbage"))
    as (m & Hm & _).
  - repeat split; try reflexivity. left; reflexivity.
  - right. left. reflexivity.
  - intros e. vm_compute. discriminate.
  - vm_compute in Hm. discriminate.
Qed.

(** C4, as the code has it.  With reward-only false, a decodable trace with
    feature data comes back under its key without its reward feature list,
    paired with the first float of the last entry of the reward feature list
    of the original trace; when that entry holds a single float, this is the
    last value of the float sequence under the reward feature list. *)
Theorem full_trace_reward
    (w : World) (self : RegAllocRunner) (file_paths : list string)
    (tf_policy_path : option string)
    (cancellation_manager : option WorkerCancellationManager)
    (dir : string) (items : list (string * Value))
    (key : string) (value : Value) (e : SequenceExample) (m : ResultMap) :
  reaches_loop w self file_paths tf_policy_path cancellation_manager dir
    items ->
  NoDup items.*1 ->
  In (key, value) items ->
  decode_trace w value = Returned e ->
  feature_lists e <> None ->
  (run w self file_paths tf_policy_path false cancellation_manager).1
  = Returned m ->
  exists r,
    m !! key = Some (Some (without_reward e), r) /\
    reward_feature_list (without_reward e) = None /\
    last_entry_first_float e = Some r /\
    (forall rl f,
       reward_feature_list e = Some rl -> last (feature rl) = Some f ->
       length (float_list_value f) = 1 ->
       last (reward_float_sequence e) = Some r).
Proof.
  intros Hreach Hnd Hin Hd Hf Hrun.
  rewrite (run_reaches_loop _ _ _ _ false _ _ _ Hreach) in Hrun.
  simpl in Hrun.
  destruct (for_items_returned_all _ _ _ _ _ Hrun key value Hin) as [x Hx].
  destruct (last_entry_first_float e) as [r|] eqn:Hr;
    [|rewrite (extract_no_value w false value e Hd Hf Hr) in Hx;
      discriminate].
  pose proof (extract_value w false value e r Hd Hf Hr) as Hx'.
  exists r. split; [|split; [apply without_reward_absent|split; [reflexivity|]]].
  - rewrite (for_items_lookup _ _ _ _ _ key value _ Hrun Hnd Hin Hx').
    simpl. apply lookup_insert_eq.
  - intros rl f Hrl Hlast Hlen. eapply single_float_last; eauto.
Qed.

Lemma full_trace_reward_witness :
  exists r,
    (<["f" := (Some (without_reward trace_ok), 7%Z)]> ∅ : ResultMap) !! "f"
    = Some (Some (without_reward trace_ok), r) /\
    reward_feature_list (without_reward trace_ok) = None /\
    last_entry_first_float trace_ok = Some r /\
    (forall rl f,
       reward_feature_list trace_ok = Some rl -> last (feature rl) = Some f ->
       length (float_list_value f) = 1 ->
       last (reward_float_sequence trace_ok) = Some r).
Proof.
  apply (full_trace_reward (demo_world items_ok) demo_self ["a.bc"; "a.cmd"]
           None None "/tmp/tmpk3x" items_ok "f" (StringValue "ok") trace_ok).
  - repeat split; try reflexivity. left; reflexivity.
  - refine (bool_decide_unpack _ _). vm_compute. exact I.
  - left. reflexivity.
  - reflexivity.
  - discriminate.
  - vm_compute. reflexivity.
Defined.

(** C4, as written, fails: when the last reward entry holds the floats 7, 9
    the reward returned is 7, and the last value of the float sequence
    is 9. *)
Lemma reward_not_last_of_sequence :
  ~ reward_is_last_of_sequence (demo_world items_two_floats) demo_self
      ["a.bc"; "a.cmd"] None None.
Proof.
  intros H.
  destruct (H "/tmp/tmpk3x" items_two_floats "f" (StringValue "twofloats")
              trace_two_floats
              (<["f" := (Some (without_reward trace_two_floats), 7%Z)]> ∅)
              (without_reward trace_two_floats) 7%Z) as [_ Hlast].
  - repeat split; try reflexivity. left; reflexivity.
  - refine (bool_decide_unpack _ _). vm_compute. exact I.
  - left. reflexivity.
  - reflexivity.
  - vm_compute. reflexivity.
  - apply lookup_insert_eq.
  - vm_compute in Hlast. discriminate.
Qed.

(** ** The command line *)

Lemma count_flags_app p l1 l2 :
  count_flags p (l1 ++ l2) = count_flags p l1 + count_flags p l2.
Proof. unfold count_flags. rewrite List.filter_app, length_app. reflexivity. Qed.

Lemma count_flags_none p l :
  Forall (fun a => p a = false) l -> count_flags p l = 0.
Proof.
  unfold count_flags. induction 1 as [|a l Ha _ IH]; simpl; [reflexivity|].
  rewrite Ha. exact IH.
Qed.

Lemma log_flag_is_log_flag path :
  is_log_output_flag ("-regalloc-training-log=" +:+ path) = true.
Proof. destruct path; reflexivity. Qed.

Lemma policy_flag_is_policy_flag path :
  is_policy_flag ("-regalloc-model=" +:+ path) = true.
Proof. destruct path; reflexivity. Qed.

Lemma log_flag_not_policy_flag path :
  is_policy_flag ("-regalloc-training-log=" +:+ path) = false.
Proof. reflexivity. Qed.

Lemma policy_flag_not_log_flag path :
  is_log_output_flag ("-regalloc-model=" +:+ path) = false.
Proof. reflexivity. Qed.

(** The command line is the launcher (if any), the compiler, the bundled
    base arguments, the eight arguments of lines 93-96 and the two of
    line 100 (if a policy is given). *)
Lemma build_command_line_parts w self cmd ir idx tf log native :
  build_command_line w self cmd ir idx tf log native =
  when_truthy (_launcher_path self) (fun p => [p]) ++
  [_clang_path self] ++
  get_command_line_for_bundle w cmd ir idx ++
  ["-mllvm"; "-thinlto-assume-merged"; "-mllvm";
   "-regalloc-enable-advisor=development";
   "-mllvm"; "-regalloc-training-log=" +:+ log; "-o"; native] ++
  when_truthy tf (fun p => ["-mllvm"; "-regalloc-model=" +:+ p]).
Proof.
  unfold build_command_line. cbv zeta.
  rewrite app_nil_l, <- !app_assoc. reflexivity.
Qed.

Lemma when_truthy_false s f : truthy s = false -> when_truthy s f = [].
Proof. unfold when_truthy. intros H. destruct s; [rewrite H|]; reflexivity. Qed.

Lemma when_truthy_true s p f : s = Some p -> truthy s = true -> when_truthy s f = f p.
Proof. unfold when_truthy. intros -> H. rewrite H. reflexivity. Qed.

Lemma build_command_line_counts w self cmd ir idx tf log native :
  Forall (fun a => is_log_output_flag a = false /\ is_policy_flag a = false)
    (when_truthy (_launcher_path self) (fun p => [p]) ++
     [_clang_path self] ++ get_command_line_for_bundle w cmd ir idx ++
     [native]) ->
  let argv := build_command_line w self cmd ir idx tf log native in
  count_flags is_log_output_flag argv = 1 /\
  count_flags is_policy_flag argv = (if truthy tf then 1 else 0).
Proof.
  intros Hclean argv. subst argv.
  apply Forall_app in Hclean as [Hl Hclean].
  apply Forall_app in Hclean as [Hc Hclean].
  apply Forall_app in Hclean as [Hb Hn].
  apply Forall_singleton in Hn as [Hn1 Hn2].
  rewrite build_command_line_parts, !count_flags_app.
  split.
  - rewrite (count_flags_none is_log_output_flag
               (when_truthy (_launcher_path self) _))
      by (eapply Forall_impl; [exact Hl|]; intros a [? ?]; assumption).
    rewrite (count_flags_none is_log_output_flag [_clang_path self])
      by (eapply Forall_impl; [exact Hc|]; intros a [? ?]; assumption).
    rewrite (count_flags_none is_log_output_flag
               (get_command_line_for_bundle w cmd ir idx))
      by (eapply Forall_impl; [exact Hb|]; intros a [? ?]; assumption).
    unfold count_flags at 1. simpl List.filter.
    rewrite log_flag_is_log_flag, Hn1. simpl.
    unfold when_truthy. destruct tf as [p|]; [|reflexivity].
    destruct (truthy (Some p)); [|reflexivity].
    reflexivity.
  - rewrite (count_flags_none is_policy_flag
               (when_truthy (_launcher_path self) _))
      by (eapply Forall_impl; [exact Hl|]; intros a [? ?]; assumption).
    rewrite (count_flags_none is_policy_flag [_clang_path self])
      by (eapply Forall_impl; [exact Hc|]; intros a [? ?]; assumption).
    rewrite (count_flags_none is_policy_flag
               (get_command_line_for_bundle w cmd ir idx))
      by (eapply Forall_impl; [exact Hb|]; intros a [? ?]; assumption).
    unfold count_flags at 1. simpl List.filter.
    rewrite ?log_flag_not_policy_flag, Hn2. simpl.
    unfold when_truthy. destruct tf as [p|]; [|reflexivity].
    destruct (truthy (Some p)); [|reflexivity].
    unfold count_flags. simpl. rewrite policy_flag_is_policy_flag. reflexivity.
Qed.

(** C9, as the code has it.  For a tuple of 2 or 3 paths, provided none of
    the arguments the builder takes over from elsewhere (launcher, compiler
    binary, bundled base arguments, output path) is itself a log-output or
    policy flag, the command line the process is started with contains
    exactly one log-output flag, exactly one policy flag iff a policy path is
    given, and starts with the configured launcher followed by the compiler
    binary. *)
Theorem command_line_flags
    (w : World) (self : RegAllocRunner) (file_paths : list string)
    (tf_policy_path : option string) (reward_only : bool)
    (cancellation_manager : option WorkerCancellationManager) (dir : string) :
  mkdtemp w = Some dir ->
  valid_arity file_paths ->
  Forall (fun a => is_log_output_flag a = false /\ is_policy_flag a = false)
    (foreign_args w self file_paths dir) ->
  In (StartProcess (argv_for w self file_paths tf_policy_path dir))
     (run w self file_paths tf_policy_path reward_only cancellation_manager).2 /\
  command_line_shape w self file_paths tf_policy_path dir.
Proof.
  intros Hdir Hv Hclean. split.
  - rewrite (run_valid _ _ _ _ _ _ dir Hdir Hv). simpl.
    destruct (process_failure _); simpl; auto.
  - unfold command_line_shape.
    apply valid_arity_cases in Hv.
    destruct Hv as [(ir & cmd & ->)|(ir & cmd & idx & ->)];
      unfold argv_for, foreign_args in *;
      (destruct (build_command_line_counts w self cmd ir _ tf_policy_path
                   (OsPath.join dir "log") (OsPath.join dir "native") Hclean)
         as [Hlog Hpol]);
      (split; [exact Hlog|split]).
    all: try (rewrite Hpol; destruct (truthy tf_policy_path);
              split; intros; [reflexivity|reflexivity|discriminate|discriminate]).
    all: intros launcher Hl Ht; rewrite build_command_line_parts;
      rewrite (when_truthy_true _ launcher _ Hl) by (rewrite Hl; exact Ht);
      simpl; eauto.
Qed.

Lemma command_line_flags_witness :
  In (StartProcess
        (argv_for (demo_world items_ok) launcher_self
           ["a.bc"; "a.cmd"; "a.thinlto.bc"] (Some "/policy") "/tmp/tmpk3x"))
     (run (demo_world items_ok) launcher_self
          ["a.bc"; "a.cmd"; "a.thinlto.bc"] (Some "/policy") false None).2 /\
  command_line_shape (demo_world items_ok) launcher_self
    ["a.bc"; "a.cmd"; "a.thinlto.bc"] (Some "/policy") "/tmp/tmpk3x".
Proof.
  apply (command_line_flags (demo_world items_ok) launcher_self
           ["a.bc"; "a.cmd"; "a.thinlto.bc"] (Some "/policy") false None
           "/tmp/tmpk3x").
  - reflexivity.
  - right. reflexivity.
  - vm_compute. repeat (constructor; [split; reflexivity|]). constructor.
Defined.

(** C9, as written, fails: when the .cmd file already holds a
    [-regalloc-training-log=] option, the command line has two log-output
    flags. *)
Lemma two_log_output_flags :
  ~ command_line_shape world_logging_cmd demo_self ["a.bc"; "a.cmd"] None
      "/tmp/tmpk3x".
Proof.
  intros [Hlog _]. vm_compute in Hlog. discriminate.
Qed.

(** * Further properties of [_compile_fn] *)

(** ** What happens, and in which order *)






(** The run is ended by [logging.fatal] exactly when the directory could be
    made and the number of paths is neither 2 nor 3; nothing inside the
    [try] can end it that way. *)
Theorem fatal_only_for_arity
    (w : World) (self : RegAllocRunner) (file_paths : list string)
    (tf_policy_path : option string) (reward_only : bool)
    (cancellation_manager : option WorkerCancellationManager) (msg : string) :
  (run w self file_paths tf_policy_path reward_only cancellation_manager).1
  = Fatal msg <->
  (exists dir, mkdtemp w = Some dir) /\ ~ valid_arity file_paths /\
  msg = "Expected 2 or 3 file paths".
Proof.
  split.
  - intros Hrun.
    destruct (mkdtemp w) as [dir|] eqn:Hdir;
      [|rewrite (run_no_dir _ _ _ _ _ _ Hdir) in Hrun; discriminate].
    destruct (classic_arity file_paths) as [Hv|Hbad].
    + rewrite (run_valid _ _ _ _ _ _ dir Hdir Hv) in Hrun. simpl in Hrun.
      destruct (process_failure _); simpl in Hrun; [discriminate|].
      destruct (read_file w (OsPath.join dir "log")) as [content|];
        [|discriminate].
      destruct (Struct_ParseFromString w content) as [se|]; [|discriminate].
      exfalso. eapply for_items_not_fatal; eauto.
    + rewrite (run_bad_arity _ _ _ _ _ _ dir Hdir Hbad) in Hrun.
      simpl in Hrun. inversion Hrun. eauto.
  - intros ([dir Hdir] & Hbad & ->).
    rewrite (run_bad_arity _ _ _ _ _ _ dir Hdir Hbad). reflexivity.
Qed.

(** ** The paths inside the working directory *)

Lemma append_inj_r (a x y : string) : a +:+ x = a +:+ y -> x = y.
Proof.
  induction a as [|c a IH]; simpl; intros H; [assumption|].
  apply IH. injection H as H. exact H.
Qed.

(** [join dir "log"] and [join dir "native"] extend [dir] by the same
    separator (none after an empty [dir] or a trailing slash). *)
Lemma join_log_native dir :
  exists sep,
    OsPath.join dir "log" = dir +:+ sep +:+ "log" /\
    OsPath.join dir "native" = dir +:+ sep +:+ "native".
Proof.
  unfold OsPath.join. simpl.
  destruct ((match dir with "" => true | _ => false end)
            || OsPath.endswith_sep dir).
  - exists "". split; reflexivity.
  - exists "/". split; reflexivity.
Qed.

Lemma run_starts_argv
    (w : World) (self : RegAllocRunner) (file_paths : list string)
    (tf_policy_path : option string) (reward_only : bool)
    (cancellation_manager : option WorkerCancellationManager) (dir : string) :
  mkdtemp w = Some dir -> valid_arity file_paths ->
  (run w self file_paths tf_policy_path reward_only cancellation_manager).2
    !! 1 = Some (StartProcess (argv_for w self file_paths tf_policy_path dir)).
Proof.
  intros Hdir Hv. rewrite (run_valid _ _ _ _ _ _ dir Hdir Hv). simpl.
  destruct (process_failure _); reflexivity.
Qed.

Lemma argv_for_parts w self file_paths tf dir :
  valid_arity file_paths ->
  exists base,
    argv_for w self file_paths tf dir =
    when_truthy (_launcher_path self) (fun p => [p]) ++
    [_clang_path self] ++ base ++
    ["-mllvm"; "-thinlto-assume-merged"; "-mllvm";
     "-regalloc-enable-advisor=development";
     "-mllvm"; "-regalloc-training-log=" +:+ OsPath.join dir "log";
     "-o"; OsPath.join dir "native"] ++
    when_truthy tf (fun p => ["-mllvm"; "-regalloc-model=" +:+ p]).
Proof.
  intros Hv. apply valid_arity_cases in Hv.
  destruct Hv as [(ir & cmd & ->)|(ir & cmd & idx & ->)]; unfold argv_for;
    eexists; apply build_command_line_parts.
Qed.

(** The compiler is told to write its training log to the very file the
    runner opens afterwards, and its native output next to it: both paths
    lie in the directory that is removed at the end, and they differ, so the
    output never overwrites the log. *)
Theorem log_flag_names_opened_file
    (w : World) (self : RegAllocRunner) (file_paths : list string)
    (tf_policy_path : option string) (reward_only : bool)
    (cancellation_manager : option WorkerCancellationManager) (dir : string) :
  mkdtemp w = Some dir ->
  valid_arity file_paths ->
  run_process w (argv_for w self file_paths tf_policy_path dir)
    (_compilation_timeout self) cancellation_manager = Success ->
  exists argv log native before after,
    (run w self file_paths tf_policy_path reward_only cancellation_manager).2
    = [Mkdtemp dir; StartProcess argv; OpenRead log; Rmtree dir] /\
    argv = before ++
           ["-mllvm"; "-regalloc-training-log=" +:+ log; "-o"; native] ++
           after /\
    log <> native /\
    (exists rest, log = dir +:+ rest) /\
    (exists rest, native = dir +:+ rest).
Proof.
  intros Hdir Hv Hp.
  exists (argv_for w self file_paths tf_policy_path dir),
    (OsPath.join dir "log"), (OsPath.join dir "native").
  destruct (argv_for_parts w self file_paths tf_policy_path dir Hv)
    as [base Hargv].
  exists (when_truthy (_launcher_path self) (fun p => [p]) ++
          [_clang_path self] ++ base ++
          ["-mllvm"; "-thinlto-assume-merged"; "-mllvm";
           "-regalloc-enable-advisor=development"]),
    (when_truthy tf_policy_path
       (fun p => ["-mllvm"; "-regalloc-model=" +:+ p])).
  split; [|split; [|split; [|split]]].
  - rewrite (run_valid _ _ _ _ _ _ dir Hdir Hv). simpl. rewrite Hp.
    reflexivity.
  - rewrite Hargv. rewrite <- !app_assoc. reflexivity.
  - destruct (join_log_native dir) as (sep & -> & ->).
    intros H. apply append_inj_r, append_inj_r in H. discriminate.
  - destruct (join_log_native dir) as (sep & -> & _). eauto.
  - destruct (join_log_native dir) as (sep & _ & ->). eauto.
Qed.

Lemma log_flag_names_opened_file_witness :
  exists argv log native before after,
    (run (demo_world items_ok) launcher_self ["a.bc"; "a.cmd"]
         (Some "/policy") false None).2
    = [Mkdtemp "/tmp/tmpk3x"; StartProcess argv; OpenRead log;
       Rmtree "/tmp/tmpk3x"] /\
    argv = before ++
           ["-mllvm"; "-regalloc-training-log=" +:+ log; "-o"; native] ++
           after /\
    log <> native /\
    (exists rest, log = "/tmp/tmpk3x" +:+ rest) /\
    (exists rest, native = "/tmp/tmpk3x" +:+ rest).
Proof.
  apply (log_flag_names_opened_file (demo_world items_ok) launcher_self
           ["a.bc"; "a.cmd"] (Some "/policy") false None "/tmp/tmpk3x").
  - reflexivity.
  - left. reflexivity.
  - reflexivity.
Defined.

(** The two ends of the command line the process is started with.  It
    begins with the launcher when one is configured and with the compiler
    otherwise (an empty launcher string counts as none); it ends with the
    policy flag when a policy path is given and with the output path
    otherwise (an empty policy path counts as none). *)
Theorem command_line_ends
    (w : World) (self : RegAllocRunner) (file_paths : list string)
    (tf_policy_path : option string) (reward_only : bool)
    (cancellation_manager : option WorkerCancellationManager) (dir : string) :
  mkdtemp w = Some dir ->
  valid_arity file_paths ->
  exists argv,
    (run w self file_paths tf_policy_path reward_only cancellation_manager).2
      !! 1 = Some (StartProcess argv) /\
    head argv
    = Some (match _launcher_path self with
            | Some launcher =>
                if truthy (Some launcher) then launcher else _clang_path self
            | None => _clang_path self
            end) /\
    last argv
    = Some (match tf_policy_path with
            | Some policy =>
                if truthy (Some policy) then "-regalloc-model=" +:+ policy
                else OsPath.join dir "native"
            | None => OsPath.join dir "native"
            end).
Proof.
  intros Hdir Hv.
  exists (argv_for w self file_paths tf_policy_path dir).
  split; [apply run_starts_argv; assumption|].
  destruct (argv_for_parts w self file_paths tf_policy_path dir Hv)
    as [base ->].
  split.
  - unfold when_truthy at 1.
    destruct (_launcher_path self) as [launcher|]; [|reflexivity].
    destruct (truthy (Some launcher)); reflexivity.
  - rewrite !app_assoc. unfold when_truthy at 2.
    destruct tf_policy_path as [policy|].
    + destruct (truthy (Some policy)).
      * rewrite (app_assoc _ ["-mllvm"] ["-regalloc-model=" +:+ policy]
                 : _ ++ ["-mllvm"; "-regalloc-model=" +:+ policy] = _).
        apply last_snoc.
      * rewrite app_nil_r.
        change ["-mllvm"; "-thinlto-assume-merged"; "-mllvm";
                "-regalloc-enable-advisor=development"; "-mllvm";
                "-regalloc-training-log=" +:+ OsPath.join dir "log"; "-o";
                OsPath.join dir "native"]
          with (["-mllvm"; "-thinlto-assume-merged"; "-mllvm";
                 "-regalloc-enable-advisor=development"; "-mllvm";
                 "-regalloc-training-log=" +:+ OsPath.join dir "log"; "-o"]
                ++ [OsPath.join dir "native"]).
        rewrite app_assoc. apply last_snoc.
    + rewrite app_nil_r.
      change ["-mllvm"; "-thinlto-assume-merged"; "-mllvm";
              "-regalloc-enable-advisor=development"; "-mllvm";
              "-regalloc-training-log=" +:+ OsPath.join dir "log"; "-o";
              OsPath.join dir "native"]
        with (["-mllvm"; "-thinlto-assume-merged"; "-mllvm";
               "-regalloc-enable-advisor=development"; "-mllvm";
               "-regalloc-training-log=" +:+ OsPath.join dir "log"; "-o"]
              ++ [OsPath.join dir "native"]).
      rewrite app_assoc. apply last_snoc.
Qed.

Lemma command_line_ends_witness :
  exists argv,
    (run (demo_world items_ok) launcher_self ["a.bc"; "a.cmd"; "a.thinlto.bc"]
         (Some "") false None).2 !! 1 = Some (StartProcess argv) /\
    head argv
    = Some (match _launcher_path launcher_self with
            | Some launcher =>
                if truthy (Some launcher) then launcher
                else _clang_path launcher_self
            | None => _clang_path launcher_self
            end) /\
    last argv
    = Some (match Some "" with
            | Some policy =>
                if truthy (Some policy) then "-regalloc-model=" +:+ policy
                else OsPath.join "/tmp/tmpk3x" "native"
            | None => OsPath.join "/tmp/tmpk3x" "native"
            end).
Proof.
  apply (command_line_ends (demo_world items_ok) launcher_self
           ["a.bc"; "a.cmd"; "a.thinlto.bc"] (Some "") false None
           "/tmp/tmpk3x").
  - reflexivity.
  - right. reflexivity.
Defined.

(** ** The two modes *)

Lemma extract_modes w value :
  extract w true value =
  match extract w false value with
  | Returned None => Returned None
  | Returned (Some p) => Returned (Some (None, p.2))
  | Raised x => Raised x
  | Fatal msg => Fatal msg
  end.
Proof.
  unfold extract.
  destruct (decode_trace w value) as [e| |]; simpl; try reflexivity.
  destruct (feature_lists e); simpl; [|reflexivity].
  destruct (last_entry_first_float e); reflexivity.
Qed.

Lemma for_items_modes w items (result : ResultMap) :
  for_items w true items (reward_only_view result) =
  reward_only_outcome (for_items w false items result).
Proof.
  revert result. induction items as [|[k v] rest IH]; intros result;
    [reflexivity|].
  rewrite !for_items_cons, extract_modes.
  destruct (extract w false v) as [[p|]| |]; simpl; try reflexivity.
  - rewrite <- IH. f_equal. unfold reward_only_view.
    rewrite fmap_insert. reflexivity.
  - apply IH.
Qed.

(** The mode changes nothing but the traces.  A run in reward-only mode has
    the same events as the run in full mode, fails when and as the full run
    fails, and otherwise returns the dict of the full run with every trace
    replaced by [None]: the same keys with the same rewards. *)
Theorem reward_only_same_rewards
    (w : World) (self : RegAllocRunner) (file_paths : list string)
    (tf_policy_path : option string)
    (cancellation_manager : option WorkerCancellationManager) :
  let full := run w self file_paths tf_policy_path false
                  cancellation_manager in
  run w self file_paths tf_policy_path true cancellation_manager
  = (reward_only_outcome full.1, full.2).
Proof.
  intros full. subst full.
  destruct (mkdtemp w) as [dir|] eqn:Hdir;
    [|rewrite !(run_no_dir _ _ _ _ _ _ Hdir); reflexivity].
  destruct (classic_arity file_paths) as [Hv|Hbad];
    [|rewrite !(run_bad_arity _ _ _ _ _ _ dir Hdir Hbad); reflexivity].
  rewrite !(run_valid _ _ _ _ _ _ dir Hdir Hv). simpl.
  destruct (process_failure _); simpl; [reflexivity|].
  destruct (read_file w (OsPath.join dir "log")) as [content|];
    [|reflexivity].
  destruct (Struct_ParseFromString w content) as [se|]; [|reflexivity].
  rewrite <- for_items_modes. unfold reward_only_view.
  rewrite fmap_empty. reflexivity.
Qed.

(** ** Which keys are bound *)

Lemma extract_data w reward_only value x :
  extract w reward_only value = Returned x ->
  has_feature_data w value = match x with Some _ => true | None => false end.
Proof.
  unfold extract, has_feature_data, HasField_feature_lists.
  destruct (decode_trace w value) as [e| |]; simpl; try discriminate.
  destruct (feature_lists e); simpl.
  - destruct (last_entry_first_float e); simpl; [|discriminate].
    intros H. inversion H. reflexivity.
  - intros H. inversion H. reflexivity.
Qed.

Lemma for_items_size w reward_only items (result m : ResultMap) :
  for_items w reward_only items result = Returned m ->
  NoDup items.*1 ->
  (forall key, key ∈ items.*1 -> result !! key = None) ->
  size m = size result + count_with_data w items.
Proof.
  unfold count_with_data.
  revert result. induction items as [|[k v] rest IH];
    intros result Hm Hnd Hfresh.
  - simpl in Hm. inversion Hm. simpl. lia.
  - rewrite for_items_cons in Hm.
    destruct (extract w reward_only v) as [x| |] eqn:Hx; simpl in Hm;
      try discriminate.
    simpl in Hnd. apply NoDup_cons in Hnd as [Hk Hnd].
    rewrite (IH _ Hm Hnd).
    + simpl. rewrite (extract_data _ _ _ _ Hx).
      destruct x as [p|]; simpl; [|reflexivity].
      rewrite map_size_insert_None; [lia|].
      apply Hfresh. simpl. left.
    + intros key Hkey.
      assert (key <> k) by (intros ->; contradiction).
      destruct x as [p|]; simpl.
      * rewrite lookup_insert_ne by congruence.
        apply Hfresh. simpl. right. assumption.
      * apply Hfresh. simpl. right. assumption.
Qed.

(** The returned dict has one binding for every item of the log whose trace
    has feature-list data, and no other: with N such items among distinct
    keys it has exactly N entries. *)
Theorem result_size
    (w : World) (self : RegAllocRunner) (file_paths : list string)
    (tf_policy_path : option string) (reward_only : bool)
    (cancellation_manager : option WorkerCancellationManager)
    (dir : string) (items : list (string * Value)) (m : ResultMap) :
  reaches_loop w self file_paths tf_policy_path cancellation_manager dir
    items ->
  NoDup items.*1 ->
  (run w self file_paths tf_policy_path reward_only cancellation_manager).1
  = Returned m ->
  size m = count_with_data w items.
Proof.
  intros Hreach Hnd Hrun.
  rewrite (run_reaches_loop _ _ _ _ reward_only _ _ _ Hreach) in Hrun.
  simpl in Hrun.
  rewrite (for_items_size _ _ _ _ _ Hrun Hnd).
  - rewrite map_size_empty. reflexivity.
  - intros key _. apply lookup_empty.
Qed.

Lemma result_size_witness :
  size (<["f" := (Some (without_reward trace_ok), 7%Z)]> ∅ : ResultMap)
  = count_with_data (demo_world items_ok) items_ok.
Proof.
  apply (result_size (demo_world items_ok) demo_self ["a.bc"; "a.cmd"] None
           false None "/tmp/tmpk3x" items_ok).
  - repeat split; try reflexivity. left; reflexivity.
  - refine (bool_decide_unpack _ _). vm_compute. exact I.
  - vm_compute. reflexivity.
Defined.

Lemma for_items_keeps w reward_only items (result m : ResultMap) key :
  for_items w reward_only items result = Returned m ->
  is_Some (result !! key) -> is_Some (m !! key).
Proof.
  revert result. induction items as [|[k v] rest IH]; intros result Hm Hin.
  - simpl in Hm. inversion Hm; subst. assumption.
  - rewrite for_items_cons in Hm.
    destruct (extract w reward_only v) as [x| |]; simpl in Hm;
      try discriminate.
    apply (IH _ Hm). destruct x as [p|]; simpl; [|assumption].
    destruct (decide (k = key)) as [->|Hne].
    + rewrite lookup_insert_eq. eauto.
    + rewrite lookup_insert_ne by assumption. assumption.
Qed.

Lemma for_items_binds w reward_only items (result m : ResultMap) key value :
  for_items w reward_only items result = Returned m ->
  In (key, value) items ->
  has_feature_data w value = true ->
  is_Some (m !! key).
Proof.
  revert result. induction items as [|[k v] rest IH]; intros result Hm Hin Hd.
  - destruct Hin.
  - rewrite for_items_cons in Hm.
    destruct (extract w reward_only v) as [x| |] eqn:Hx; simpl in Hm;
      try discriminate.
    destruct Hin as [Heq|Hin].
    + inversion Heq; subst.
      rewrite (extract_data _ _ _ _ Hx) in Hd.
      destruct x as [p|]; [|discriminate]. simpl in Hm.
      apply (for_items_keeps _ _ _ _ _ _ Hm).
      rewrite lookup_insert_eq. eauto.
    + eapply IH; eauto.
Qed.

(** A key of the log is missing from the returned dict for one reason
    only: its trace has no feature-list data.  (No distinctness of keys is
    needed here.) *)
Theorem dropped_only_without_data
    (w : World) (self : RegAllocRunner) (file_paths : list string)
    (tf_policy_path : option string) (reward_only : bool)
    (cancellation_manager : option WorkerCancellationManager)
    (dir : string) (items : list (string * Value)) (m : ResultMap)
    (key : string) (value : Value) :
  reaches_loop w self file_paths tf_policy_path cancellation_manager dir
    items ->
  (run w self file_paths tf_policy_path reward_only cancellation_manager).1
  = Returned m ->
  In (key, value) items ->
  m !! key = None ->
  exists e, decode_trace w value = Returned e /\ feature_lists e = None.
Proof.
  intros Hreach Hrun Hin Hnone.
  rewrite (run_reaches_loop _ _ _ _ reward_only _ _ _ Hreach) in Hrun.
  simpl in Hrun.
  destruct (for_items_returned_all _ _ _ _ _ Hrun key value Hin) as [x Hx].
  pose proof (extract_data _ _ _ _ Hx) as Hdata.
  destruct x as [p|].
  - destruct (for_items_binds _ _ _ _ _ _ _ Hrun Hin Hdata) as [q Hq].
    congruence.
  - unfold extract in Hx.
    destruct (decode_trace w value) as [e| |]; simpl in Hx; try discriminate.
    exists e. split; [reflexivity|].
    destruct (feature_lists e); [|reflexivity].
    destruct (last_entry_first_float e); discriminate.
Qed.

Lemma dropped_only_without_data_witness :
  exists e,
    decode_trace (demo_world items_ok) (StringValue "nodata") = Returned e /\
    feature_lists e = None.
Proof.
  apply (dropped_only_without_data (demo_world items_ok) demo_self
           ["a.bc"; "a.cmd"] None true None "/tmp/tmpk3x" items_ok
           (<["f" := (None, 7%Z)]> ∅) "g" (StringValue "nodata")).
  - repeat split; try reflexivity. left; reflexivity.
  - vm_compute. reflexivity.
  - right. left. reflexivity.
  - reflexivity.
Defined.

(** ** Failures inside the loop *)

(** A reward list whose last entry carries no float (an empty float list, or
    a feature of another kind) fails like an empty reward list: reading
    [float_list.value[0]] raises IndexError and the run returns no dict. *)
Theorem reward_entry_without_float_fails
    (w : World) (self : RegAllocRunner) (file_paths : list string)
    (tf_policy_path : option string) (reward_only : bool)
    (cancellation_manager : option WorkerCancellationManager)
    (dir : string) (pre post : list (string * Value))
    (key : string) (value : Value) (e : SequenceExample)
    (rl : FeatureList) (f : Feature) :
  reaches_loop w self file_paths tf_policy_path cancellation_manager dir
    (pre ++ (key, value) :: post) ->
  decode_trace w value = Returned e ->
  reward_feature_list e = Some rl ->
  last (feature rl) = Some f ->
  float_list_value f = [] ->
  (forall result, loop_body w reward_only key value result = Raised IndexError) /\
  exists x,
    run w self file_paths tf_policy_path reward_only cancellation_manager
    = (Raised x, full_events w self file_paths tf_policy_path dir) /\
    (forall m', for_items w reward_only pre ∅ = Returned m' ->
                x = IndexError).
Proof.
  intros Hreach Hd Hrl Hlast Hf.
  assert (extract w reward_only value = Raised IndexError) as Hx.
  { apply (extract_no_value w reward_only value e Hd).
    - unfold reward_feature_list in Hrl.
      destruct (feature_lists e); discriminate.
    - unfold last_entry_first_float. rewrite Hrl. simpl. rewrite Hlast.
      simpl. rewrite Hf. reflexivity. }
  split; [intros result; rewrite loop_body_extract, Hx; reflexivity|].
  destruct (run_raises_at _ _ _ _ _ _ _ _ _ _ _ _ Hreach Hx)
    as (x & Hrun & _ & Hfirst).
  eauto.
Qed.

Lemma reward_entry_without_float_fails_witness :
  (forall result,
     loop_body (more_world items_int_reward) false "g"
       (StringValue "intreward") result = Raised IndexError) /\
  exists x,
    run (more_world items_int_reward) demo_self ["a.bc"; "a.cmd"] None false
        None
    = (Raised x,
       full_events (more_world items_int_reward) demo_self ["a.bc"; "a.cmd"]
         None "/tmp/tmpk3x") /\
    (forall m',
       for_items (more_world items_int_reward) false
         [("f", StringValue "ok")] ∅ = Returned m' ->
       x = IndexError).
Proof.
  apply (reward_entry_without_float_fails (more_world items_int_reward)
           demo_self ["a.bc"; "a.cmd"] None false None "/tmp/tmpk3x"
           [("f", StringValue "ok")] [("h", StringValue "garbage")]
           "g" (StringValue "intreward") trace_int_reward
           {| feature := [FloatList [5%Z]; Int64List [7%Z]] |}
           (Int64List [7%Z])).
  - repeat split; try reflexivity. left; reflexivity.
  - reflexivity.
  - reflexivity.
  - reflexivity.
  - reflexivity.
Defined.



(** ** What the returned trace keeps *)

(** In full mode the [del] of line 121 takes away the reward feature list
    and nothing else: the returned trace has the context of the logged trace
    and, under every other name, the feature list the logged trace has. *)
Theorem other_feature_lists_kept
    (w : World) (self : RegAllocRunner) (file_paths : list string)
    (tf_policy_path : option string)
    (cancellation_manager : option WorkerCancellationManager)
    (dir : string) (items : list (string * Value))
    (key : string) (value : Value) (e : SequenceExample) (fls : FeatureLists)
    (m : ResultMap) :
  reaches_loop w self file_paths tf_policy_path cancellation_manager dir
    items ->
  NoDup items.*1 ->
  In (key, value) items ->
  decode_trace w value = Returned e ->
  feature_lists e = Some fls ->
  (run w self file_paths tf_policy_path false cancellation_manager).1
  = Returned m ->
  exists e' fls' r,
    m !! key = Some (Some e', r) /\
    context e' = context e /\
    feature_lists e' = Some fls' /\
    feature_list fls' !! "reward" = None /\
    forall name, name <> "reward" ->
      feature_list fls' !! name = feature_list fls !! name.
Proof.
  intros Hreach Hnd Hin Hd Hf Hrun.
  rewrite (run_reaches_loop _ _ _ _ false _ _ _ Hreach) in Hrun.
  simpl in Hrun.
  assert (feature_lists e <> None) as Hsome by congruence.
  destruct (for_items_returned_all _ _ _ _ _ Hrun key value Hin) as [x Hx].
  destruct (last_entry_first_float e) as [r|] eqn:Hr;
    [|rewrite (extract_no_value w false value e Hd Hsome Hr) in Hx;
      discriminate].
  pose proof (extract_value w false value e r Hd Hsome Hr) as Hx'.
  exists (without_reward e),
    {| feature_list := delete "reward" (feature_list fls) |}, r.
  split; [|split; [reflexivity|split; [|split]]].
  - rewrite (for_items_lookup _ _ _ _ _ key value _ Hrun Hnd Hin Hx').
    simpl. apply lookup_insert_eq.
  - unfold without_reward. simpl. rewrite Hf. reflexivity.
  - simpl. apply lookup_delete_eq.
  - intros name Hne. simpl. apply lookup_delete_ne. congruence.
Qed.

Lemma other_feature_lists_kept_witness :
  exists e' fls' r,
    (<["f" := (Some (without_reward trace_ok), 7%Z)]> ∅ : ResultMap) !! "f"
    = Some (Some e', r) /\
    context e' = context trace_ok /\
    feature_lists e' = Some fls' /\
    feature_list fls' !! "reward" = None /\
    forall name, name <> "reward" ->
      feature_list fls' !! name
      = feature_list
          {| feature_list :=
               <["mask" := {| feature := [Int64List [1%Z]; Int64List [0%Z]] |}]>
               (<["reward" := rewards [[5%Z]; [7%Z]]]> ∅) |} !! name.
Proof.
  apply (other_feature_lists_kept (demo_world items_ok) demo_self
           ["a.bc"; "a.cmd"] None None "/tmp/tmpk3x" items_ok "f"
           (StringValue "ok") trace_ok).
  - repeat split; try reflexivity. left; reflexivity.
  - refine (bool_decide_unpack _ _). vm_compute. exact I.
  - left. reflexivity.
  - reflexivity.
  - reflexivity.
  - vm_compute. reflexivity.
Defined.
